(** * Sovereign reasoning engine: claim classification and verification

    A shallow embedding of the classification / verification core of
    [sovereign-engine/sovereign_reasoning_engine.py]:

    - [check_truth_floor]            (the axiom registry and its matcher),
    - [TruthTier], [TTO_TOKENS]      (the 13 tiers and the token table),
    - [EpistemicSubjectDetector.detect],
    - [TTOClassifier.classify],
    - [verification_cascade],
    - [multidimensional_analysis] and the stages of
      [SovereignReasoningEngine.reason],

    and of the pure parts of its REST wrapper [sovereign-engine/api.py]
    ([_get_tier_description], [get_tiers], [classify_text]).

    Conventions of the embedding.

    - A Python [str] is a Stdlib [string]: the sequence of the bytes of its
      UTF-8 encoding.  Substring containment ([kw in text]) on code points
      and on UTF-8 bytes agree.  [str.lower], [str.split], and the regular
      expression classes [\s], [\d], [\w], [\b] are implemented on the ASCII
      range exactly as Python 3 does (so [\s] includes the separators
      0x1c..0x1f); a byte above 0x7f is left alone by [lower] and belongs to
      none of the classes.  The theorems that quantify over all texts
      use nothing of the matcher, and of [lower] at most that it is
      idempotent; the theorems about concrete inputs use ASCII inputs
      only.
    - What lies outside the process (the provider, the clock) is a state
      [World] threaded through the calls; the library formatters of
      floats and JSON are parameters.
    - A Python [float] is a primitive binary64 [float]; literals are rounded
      to the nearest binary64 as Python does.
    - A Python [dict] whose iteration order matters is an association list
      in insertion order; a failing subscript ([KeyError]) is [None]. *)

From Stdlib Require Import Bool Ascii String List ZArith Floats Lia DecimalString.
Import ListNotations.

Set Warnings "-inexact-float".

Open Scope string_scope.

(** ** Python string primitives *)

Module Py.

Definition is_upper (c : ascii) : bool :=
  let n := nat_of_ascii c in (65 <=? n)%nat && (n <=? 90)%nat.

Definition lower_char (c : ascii) : ascii :=
  if is_upper c then ascii_of_nat (nat_of_ascii c + 32) else c.

(** [str.lower()] *)
Fixpoint lower (s : string) : string :=
  match s with
  | EmptyString => EmptyString
  | String c s' => String (lower_char c) (lower s')
  end.

(** [str.isspace()] on one character: TAB LF VT FF CR, FS GS RS US, SPACE. *)
Definition isspace (c : ascii) : bool :=
  let n := nat_of_ascii c in
  ((9 <=? n)%nat && (n <=? 13)%nat) || ((28 <=? n)%nat && (n <=? 32)%nat).

Definition isdigit (c : ascii) : bool :=
  let n := nat_of_ascii c in (48 <=? n)%nat && (n <=? 57)%nat.

Definition isalpha (c : ascii) : bool :=
  let n := nat_of_ascii c in
  ((65 <=? n)%nat && (n <=? 90)%nat) || ((97 <=? n)%nat && (n <=? 122)%nat).

(** [needle in hay] for two strings. *)
Fixpoint contains (needle hay : string) : bool :=
  if prefix needle hay then true
  else match hay with
       | EmptyString => false
       | String _ hay' => contains needle hay'
       end.

(** [str.split()] with no argument: maximal runs of non-whitespace. *)
Fixpoint split_from (cur s : string) : list string :=
  match s with
  | EmptyString => if (cur =? "") then [] else [cur]
  | String c s' =>
      if isspace c
      then (if (cur =? "") then split_from "" s' else cur :: split_from "" s')
      else split_from (cur ++ String c "") s'
  end.

Definition split (s : string) : list string := split_from "" s.

Definition mem (w : string) (l : list string) : bool := existsb (String.eqb w) l.

(** [set(l)], kept as a duplicate-free list; only its size and its
    members are ever observed. *)
Definition set (l : list string) : list string := nodup string_dec l.

(** [a - b] on sets. *)
Definition set_diff (a b : list string) : list string :=
  filter (fun w => negb (mem w b)) a.

(** [sum(1 for x in l if p x)] *)
Definition count {A : Type} (p : A -> bool) (l : list A) : nat :=
  List.length (filter p l).

(** [any(p x for x in l)] *)
Definition any {A : Type} (p : A -> bool) (l : list A) : bool := existsb p l.

(** [float(n)] for a small non-negative integer. *)
Definition float_of_nat (n : nat) : float :=
  PrimFloat.of_uint63 (Uint63.of_Z (Z.of_nat n)).

(** Truth value of an [Optional[str]]: [None] and [""] are false. *)
Definition truthy (o : option string) : bool :=
  match o with
  | Some s => negb (s =? "")
  | None => false
  end.

(** [s.endswith(suffix)] *)
Fixpoint endswith (s suffix : string) : bool :=
  if (s =? suffix) then true
  else match s with
       | EmptyString => false
       | String _ s' => endswith s' suffix
       end.

(** [str(n)] for an [int]. *)
Definition str_int (n : Z) : string := NilZero.string_of_int (Z.to_int n).

(** [str(b)] for a [bool]. *)
Definition str_bool (b : bool) : string := if b then "True" else "False".

(** The line feed of a string literal. *)
Definition LF : string := String (ascii_of_nat 10) EmptyString.

End Py.

(** ** Regular expressions, as far as the engine's patterns use them *)

Module Re.

Inductive regex : Type :=
| Eps
| Lit (c : ascii)                (* an ordinary or escaped character *)
| Class (p : ascii -> bool)      (* \s, \d, \w, [...] *)
| WordB                          (* \b *)
| Cat (r1 r2 : regex)
| Alt (r1 r2 : regex)
| Opt (r : regex)                (* r? *)
| Star (r : regex).              (* r* *)

(** [r+] *)
Definition Plus (r : regex) : regex := Cat r (Star r).

Fixpoint str (s : string) : regex :=
  match s with
  | EmptyString => Eps
  | String c s' => Cat (Lit c) (str s')
  end.

Fixpoint seq (rs : list regex) : regex :=
  match rs with
  | [] => Eps
  | r :: rs' => Cat r (seq rs')
  end.

(** [(r1|r2|...|rn)] with n >= 1 *)
Fixpoint alt (rs : list regex) : regex :=
  match rs with
  | [] => Class (fun _ => false)
  | [r] => r
  | r :: rs' => Alt r (alt rs')
  end.

(** [(w1|w2|...)] over literal words *)
Definition words (ws : list string) : regex := alt (map str ws).

Definition s_ : regex := Class Py.isspace.
Definition d_ : regex := Class Py.isdigit.
Definition is_word (c : ascii) : bool :=
  Py.isalpha c || Py.isdigit c || Ascii.eqb c "_"%char.
Definition w_ : regex := Class is_word.
Definition one_of (cs : string) : regex :=
  Class (fun c => existsb (Ascii.eqb c) (list_ascii_of_string cs)).

Definition is_word_opt (o : option ascii) : bool :=
  match o with Some c => is_word c | None => false end.

Definition first (s : string) : option ascii :=
  match s with EmptyString => None | String c _ => Some c end.

(** A backtracking matcher in continuation-passing style.  The position
    is the character just before it ([prev], for [\b]) and the text that
    remains.  [k] is what has to match after [r]. *)
Fixpoint matches (r : regex) (prev : option ascii) (s : string)
         (k : option ascii -> string -> bool) {struct r} : bool :=
  match r with
  | Eps => k prev s
  | Lit c =>
      match s with
      | String d s' => if Ascii.eqb c d then k (Some d) s' else false
      | EmptyString => false
      end
  | Class p =>
      match s with
      | String d s' => if p d then k (Some d) s' else false
      | EmptyString => false
      end
  | WordB =>
      if xorb (is_word_opt prev) (is_word_opt (first s)) then k prev s else false
  | Cat r1 r2 => matches r1 prev s (fun prev' s' => matches r2 prev' s' k)
  | Alt r1 r2 => matches r1 prev s k || matches r2 prev s k
  | Opt r1 => matches r1 prev s k || k prev s
  | Star r1 =>
      (fix star (n : nat) (prev : option ascii) (s : string) {struct n} : bool :=
         k prev s ||
         match n with
         | O => false
         | S n' =>
             matches r1 prev s
               (fun prev' s' => (String.length s' <? String.length s)%nat && star n' prev' s')
         end) (String.length s) prev s
  end.

Fixpoint search_from (r : regex) (prev : option ascii) (s : string) : bool :=
  matches r prev s (fun _ _ => true) ||
  match s with
  | EmptyString => false
  | String c s' => search_from r (Some c) s'
  end.

(** [bool(re.search(r, s))] *)
Definition search (r : regex) (s : string) : bool := search_from r None s.

End Re.

(** ** Truth floor: the 12 axioms *)

Definition TRUTH_FLOOR : list string :=
  [ "This statement exists";
    "A and not-A cannot both be true in the same context";
    "Energy is conserved";
    "c = 299792458 m/s in vacuum";
    "E = hν";
    "π is transcendental";
    "e is transcendental";
    "Every integer greater than 1 has unique prime factorization";
    "Shannon entropy of any message is >= 0";
    "Entropy of an isolated system never decreases";
    "An unknown quantum state cannot be perfectly cloned";
    "Verifying the Truth Floor adds zero net friction" ].

Definition STOP_WORDS : list string :=
  ["the"; "a"; "is"; "of"; "in"; "to"; "and"; "an"].

(** [set(axiom.lower().split()) - {"the", ...}] *)
Definition axiom_words (axiom : string) : list string :=
  Py.set_diff (Py.set (Py.split (Py.lower axiom))) STOP_WORDS.

(** [sum(1 for w in axiom_words if w in claim_lower)] *)
Definition axiom_matches (axiom claim_lower : string) : nat :=
  Py.count (fun w => Py.contains w claim_lower) (axiom_words axiom).

(** [matches >= len(axiom_words) * 0.6], an [int] against a [float]. *)
Definition reaches_threshold (matches len : nat) : bool :=
  PrimFloat.leb (PrimFloat.mul (Py.float_of_nat len) 0.6%float) (Py.float_of_nat matches).

Fixpoint check_truth_floor_loop (axioms : list string) (claim_lower : string)
  : option string :=
  match axioms with
  | [] => None
  | axiom :: rest =>
      if reaches_threshold (axiom_matches axiom claim_lower)
                           (List.length (axiom_words axiom))
      then Some axiom
      else check_truth_floor_loop rest claim_lower
  end.

Definition check_truth_floor (claim : string) : option string :=
  let claim_lower := Py.lower claim in
  check_truth_floor_loop TRUTH_FLOOR claim_lower.

(** ** The 13 truth tiers *)

Inductive TruthTier : Type :=
| T0_AXIOMATIC | T1_MATHEMATICAL | T2_LOGICAL | T3_EMPIRICAL_STABLE
| T4_EMPIRICAL_MEASURED | T5_DOCUMENTARY | T6_CONTEXTUAL | T7_TEMPORAL
| T8_TESTIMONIAL | T9_SOCIAL | T10_COGNITIVE | T11_SPECULATIVE | T12_INTEGRITY.

(** The members of the enumeration, in declaration order. *)
Definition TruthTier_members : list TruthTier :=
  [ T0_AXIOMATIC; T1_MATHEMATICAL; T2_LOGICAL; T3_EMPIRICAL_STABLE;
    T4_EMPIRICAL_MEASURED; T5_DOCUMENTARY; T6_CONTEXTUAL; T7_TEMPORAL;
    T8_TESTIMONIAL; T9_SOCIAL; T10_COGNITIVE; T11_SPECULATIVE; T12_INTEGRITY ].

Definition tier_num (t : TruthTier) : Z :=
  match t with
  | T0_AXIOMATIC => 0 | T1_MATHEMATICAL => 1 | T2_LOGICAL => 2
  | T3_EMPIRICAL_STABLE => 3 | T4_EMPIRICAL_MEASURED => 4 | T5_DOCUMENTARY => 5
  | T6_CONTEXTUAL => 6 | T7_TEMPORAL => 7 | T8_TESTIMONIAL => 8
  | T9_SOCIAL => 9 | T10_COGNITIVE => 10 | T11_SPECULATIVE => 11
  | T12_INTEGRITY => 12
  end%Z.

Definition tier_name (t : TruthTier) : string :=
  match t with
  | T0_AXIOMATIC => "Axiomatic" | T1_MATHEMATICAL => "Mathematical"
  | T2_LOGICAL => "Logical" | T3_EMPIRICAL_STABLE => "Empirical-Stable"
  | T4_EMPIRICAL_MEASURED => "Empirical-Measured" | T5_DOCUMENTARY => "Documentary"
  | T6_CONTEXTUAL => "Contextual" | T7_TEMPORAL => "Temporal"
  | T8_TESTIMONIAL => "Testimonial" | T9_SOCIAL => "Social/Consensus"
  | T10_COGNITIVE => "Cognitive/Subjective" | T11_SPECULATIVE => "Speculative"
  | T12_INTEGRITY => "Integrity Violation"
  end.

Definition resistance (t : TruthTier) : float :=
  match t with
  | T0_AXIOMATIC => 0.000 | T1_MATHEMATICAL => 0.001 | T2_LOGICAL => 0.005
  | T3_EMPIRICAL_STABLE => 0.010 | T4_EMPIRICAL_MEASURED => 0.030
  | T5_DOCUMENTARY => 0.050 | T6_CONTEXTUAL => 0.080 | T7_TEMPORAL => 0.120
  | T8_TESTIMONIAL => 0.180 | T9_SOCIAL => 0.250 | T10_COGNITIVE => 0.350
  | T11_SPECULATIVE => 0.500 | T12_INTEGRITY => 1.000
  end%float.

(** ** The token table *)

Record TruthToken : Type := mkTruthToken {
  tok_symbol : string;
  tok_tier : TruthTier;
  tok_name : string;
  tok_definition : string;
  tok_keywords : list string
}.

(** [TTO_TOKENS]: a dict, iterated in insertion order. *)
Definition TTO_TOKENS : list (string * TruthToken) :=
  map (fun t => (tok_symbol t, t))
  [ (* T0 - Axiomatic *)
    mkTruthToken "TautologyTT" T0_AXIOMATIC "Tautology" "Self-evidently true" ["tautology"; "by definition"; "necessarily"];
    mkTruthToken "ExistenceTT" T0_AXIOMATIC "Existence" "Existence claim" ["exists"; "there is"; "being"];
    mkTruthToken "IdentityTT" T0_AXIOMATIC "Identity" "A = A" ["identical"; "same as"; "equals itself"];
    (* T1 - Mathematical *)
    mkTruthToken "MathematicalTT" T1_MATHEMATICAL "Mathematical" "Provable calculation" ["equals"; "sum"; "calculate"; "compute"; "math"; "+"; "-"; "*"; "/"; "="];
    mkTruthToken "PhysicalConstantTT" T1_MATHEMATICAL "Physical Constant" "Defined constant" ["speed of light"; "planck"; "constant"; "c ="; "π"; "299792458"];
    mkTruthToken "DefinitionalTT" T1_MATHEMATICAL "Definitional" "True by definition" ["defined as"; "by definition"; "means"];
    (* T2 - Logical *)
    mkTruthToken "DeductiveTT" T2_LOGICAL "Deductive" "Valid deduction" ["therefore"; "thus"; "hence"; "it follows"];
    mkTruthToken "SyllogisticTT" T2_LOGICAL "Syllogistic" "Syllogism" ["all"; "some"; "no"; "if then"];
    mkTruthToken "BinaryLogicalTT" T2_LOGICAL "Binary Logic" "Boolean logic" ["and"; "or"; "not"; "xor"; "implies"];
    (* T3 - Empirical Stable *)
    mkTruthToken "ScientificLawTT" T3_EMPIRICAL_STABLE "Scientific Law" "Established law" ["law of"; "always"; "never"; "universal"];
    mkTruthToken "UniversalTT" T3_EMPIRICAL_STABLE "Universal Fact" "Universal truth" ["everywhere"; "all"; "every"; "always"];
    mkTruthToken "AtomicFactTT" T3_EMPIRICAL_STABLE "Atomic Fact" "Simple verifiable fact" ["is"; "has"; "contains"];
    (* T4 - Empirical Measured *)
    mkTruthToken "EmpiricalTT" T4_EMPIRICAL_MEASURED "Empirical" "From observation" ["observed"; "measured"; "experiment"];
    mkTruthToken "StatisticalTT" T4_EMPIRICAL_MEASURED "Statistical" "Statistical finding" ["average"; "mean"; "percent"; "correlation"];
    mkTruthToken "MeasurementTT" T4_EMPIRICAL_MEASURED "Measurement" "Quantified value" ["measured"; "reading"; "value"];
    (* T5 - Documentary *)
    mkTruthToken "DocumentaryTT" T5_DOCUMENTARY "Documentary" "Documented evidence" ["document"; "record"; "certificate"];
    mkTruthToken "CitationTT" T5_DOCUMENTARY "Citation" "Cited source" ["according to"; "cited"; "reference"];
    mkTruthToken "HistoricalTT" T5_DOCUMENTARY "Historical" "Historical fact" ["in history"; "historically"; "year"; "century"];
    (* T6 - Contextual *)
    mkTruthToken "ContextualTT" T6_CONTEXTUAL "Contextual" "Context-dependent" ["in context"; "depending on"; "within"];
    mkTruthToken "DomainSpecificTT" T6_CONTEXTUAL "Domain-Specific" "Field-specific" ["in medicine"; "in law"; "technically"];
    mkTruthToken "ConditionalTT" T6_CONTEXTUAL "Conditional" "If-then truth" ["if"; "when"; "provided that"];
    (* T7 - Temporal *)
    mkTruthToken "CurrentTT" T7_TEMPORAL "Current" "Present state" ["currently"; "now"; "at present"; "today"];
    mkTruthToken "PredictiveTT" T7_TEMPORAL "Predictive" "Future prediction" ["will"; "forecast"; "expect"; "predict"];
    mkTruthToken "TrendTT" T7_TEMPORAL "Trend" "Trend observation" ["trend"; "rising"; "falling"; "increasing"];
    (* T8 - Testimonial *)
    mkTruthToken "TestimonialTT" T8_TESTIMONIAL "Testimonial" "Someone's claim" ["said"; "claims"; "testified"; "reported"];
    mkTruthToken "ExpertOpinionTT" T8_TESTIMONIAL "Expert Opinion" "Expert says" ["expert"; "scientist says"; "doctor says"];
    mkTruthToken "HearsayTT" T8_TESTIMONIAL "Hearsay" "Second-hand report" ["heard that"; "supposedly"; "allegedly"];
    (* T9 - Social *)
    mkTruthToken "ConsensusTT" T9_SOCIAL "Consensus" "Group agreement" ["consensus"; "most agree"; "widely accepted"];
    mkTruthToken "CulturalTT" T9_SOCIAL "Cultural" "Cultural norm" ["culture"; "tradition"; "custom"];
    mkTruthToken "NormativeTT" T9_SOCIAL "Normative" "Should/ought claim" ["should"; "ought"; "must"; "need to"];
    (* T10 - Cognitive *)
    mkTruthToken "OpinionTT" T10_COGNITIVE "Opinion" "Personal view" ["i think"; "in my opinion"; "i believe"];
    mkTruthToken "BeliefTT" T10_COGNITIVE "Belief" "Belief statement" ["believe"; "faith"; "conviction"];
    mkTruthToken "PreferenceTT" T10_COGNITIVE "Preference" "Personal preference" ["prefer"; "like"; "favorite"];
    mkTruthToken "IntrospectiveTT" T10_COGNITIVE "Introspective" "Self-knowledge" ["i feel"; "i am"; "i want"];
    (* T11 - Speculative *)
    mkTruthToken "SpeculativeTT" T11_SPECULATIVE "Speculative" "Speculation" ["maybe"; "perhaps"; "might"; "possibly"; "could be"; "aliens"];
    mkTruthToken "HypotheticalTT" T11_SPECULATIVE "Hypothetical" "What-if scenario" ["what if"; "hypothetically"; "imagine"; "suppose"];
    mkTruthToken "UncertainTT" T11_SPECULATIVE "Uncertain" "Unknown status" ["uncertain"; "unclear"; "unknown"; "not sure"];
    (* T12 - Integrity *)
    mkTruthToken "FalseTT" T12_INTEGRITY "False" "Demonstrably false" ["false"; "wrong"; "incorrect"; "untrue"];
    mkTruthToken "MisleadingTT" T12_INTEGRITY "Misleading" "Technically true but misleading" ["misleading"; "deceptive"; "spin"];
    mkTruthToken "PropagandaTT" T12_INTEGRITY "Propaganda" "Manipulative content" ["propaganda"; "manipulate"; "brainwash"];
    mkTruthToken "ContradictoryTT" T12_INTEGRITY "Contradictory" "Self-contradicting" ["contradict"; "inconsistent"; "paradox"] ].

(** ** Epistemic subject detection *)

Inductive EpistemicLevel : Type :=
| A_PRIORI | A_POSTERIORI | INTROSPECTIVE | TESTIMONIAL | NORMATIVE | SPECULATIVE.

(** [EpistemicLevel.value] *)
Definition level_value (l : EpistemicLevel) : string :=
  match l with
  | A_PRIORI => "a_priori"
  | A_POSTERIORI => "a_posteriori"
  | INTROSPECTIVE => "introspective"
  | TESTIMONIAL => "testimonial"
  | NORMATIVE => "normative"
  | SPECULATIVE => "speculative"
  end.

(** [==] on members of the enumeration. *)
Definition level_eqb (a b : EpistemicLevel) : bool :=
  match a, b with
  | A_PRIORI, A_PRIORI | A_POSTERIORI, A_POSTERIORI
  | INTROSPECTIVE, INTROSPECTIVE | TESTIMONIAL, TESTIMONIAL
  | NORMATIVE, NORMATIVE | SPECULATIVE, SPECULATIVE => true
  | _, _ => false
  end.

Record EpistemicSubject : Type := mkEpistemicSubject {
  subject_type : string;
  subject_name : option string;
  epistemic_level : EpistemicLevel;
  confidence : float;
  access_type : string;
  verifiability : string
}.

Section Patterns.
Import Re.

(* \bi\s+(feel|think|believe|want|like|hate|love|prefer|know|remember)\b
   \bmy\s+(opinion|view|feeling|experience|belief)\b
   \bto me\b   \bfor me\b   \bi\'m\s+(sure|certain|convinced)\b *)
Definition INTROSPECTIVE_PATTERNS : list regex :=
  [ seq [WordB; str "i"; Plus s_;
         words ["feel"; "think"; "believe"; "want"; "like"; "hate"; "love";
                "prefer"; "know"; "remember"]; WordB];
    seq [WordB; str "my"; Plus s_;
         words ["opinion"; "view"; "feeling"; "experience"; "belief"]; WordB];
    seq [WordB; str "to me"; WordB];
    seq [WordB; str "for me"; WordB];
    seq [WordB; str "i'm"; Plus s_; words ["sure"; "certain"; "convinced"]; WordB] ].

(* \b(he|she|they|it)\s+(said|told|claimed|stated|believes|thinks)\b
   \baccording to\b   \b\w+\s+says\b   \breportedly\b   \ballegedly\b *)
Definition TESTIMONIAL_PATTERNS : list regex :=
  [ seq [WordB; words ["he"; "she"; "they"; "it"]; Plus s_;
         words ["said"; "told"; "claimed"; "stated"; "believes"; "thinks"]; WordB];
    seq [WordB; str "according to"; WordB];
    seq [WordB; Plus w_; Plus s_; str "says"; WordB];
    seq [WordB; str "reportedly"; WordB];
    seq [WordB; str "allegedly"; WordB] ].

(* \bscientists?\s+(say|believe|found|discovered)\b
   \bresearch\s+(shows?|indicates?|suggests?)\b
   \bexperts?\s+(say|believe|agree)\b
   \bthe\s+study\s+(found|shows|indicates)\b *)
Definition AUTHORITY_PATTERNS : list regex :=
  [ seq [WordB; str "scientist"; Opt (Lit "s"); Plus s_;
         words ["say"; "believe"; "found"; "discovered"]; WordB];
    seq [WordB; str "research"; Plus s_;
         alt [ seq [str "show"; Opt (Lit "s")];
               seq [str "indicate"; Opt (Lit "s")];
               seq [str "suggest"; Opt (Lit "s")] ]; WordB];
    seq [WordB; str "expert"; Opt (Lit "s"); Plus s_;
         words ["say"; "believe"; "agree"]; WordB];
    seq [WordB; str "the"; Plus s_; str "study"; Plus s_;
         words ["found"; "shows"; "indicates"]; WordB] ].

(* \b\d+\s*[\+\-\*\/]\s*\d+\s*=\s*\d+\b     (full equations like 2+2=4)
   \b\d+\s*[\+\-\*\/]\s*\d+\b               (partial math like 2+2)
   \bby definition\b   \bnecessarily\b   \blogically\b
   \ball\s+\w+\s+are\b   \bno\s+\w+\s+is\b *)
Definition APRIORI_PATTERNS : list regex :=
  [ seq [WordB; Plus d_; Star s_; one_of "+-*/"; Star s_; Plus d_; Star s_;
         Lit "="; Star s_; Plus d_; WordB];
    seq [WordB; Plus d_; Star s_; one_of "+-*/"; Star s_; Plus d_; WordB];
    seq [WordB; str "by definition"; WordB];
    seq [WordB; str "necessarily"; WordB];
    seq [WordB; str "logically"; WordB];
    seq [WordB; str "all"; Plus s_; Plus w_; Plus s_; str "are"; WordB];
    seq [WordB; str "no"; Plus s_; Plus w_; Plus s_; str "is"; WordB] ].

(* \bshould\b  \bought\b  \bmust\b  \bneed to\b
   \bis\s+(right|wrong|good|bad|moral|immoral)\b *)
Definition NORMATIVE_PATTERNS : list regex :=
  [ seq [WordB; str "should"; WordB];
    seq [WordB; str "ought"; WordB];
    seq [WordB; str "must"; WordB];
    seq [WordB; str "need to"; WordB];
    seq [WordB; str "is"; Plus s_;
         words ["right"; "wrong"; "good"; "bad"; "moral"; "immoral"]; WordB] ].

(* \d+\s*[\+\-\*\/\=]\s*\d+   (used by the verification cascade) *)
Definition MATH_PATTERN : regex :=
  seq [Plus d_; Star s_; one_of "+-*/="; Star s_; Plus d_].

End Patterns.

(** [for pattern in patterns: if re.search(pattern, text_lower): return ...]:
    does the loop reach its [return]? *)
Fixpoint some_pattern_found (patterns : list Re.regex) (text_lower : string) : bool :=
  match patterns with
  | [] => false
  | pattern :: rest =>
      if Re.search pattern text_lower then true
      else some_pattern_found rest text_lower
  end.

Definition detect (text : string) : EpistemicSubject :=
  let text_lower := Py.lower text in
  (* Check introspective (self-knowledge) *)
  if some_pattern_found INTROSPECTIVE_PATTERNS text_lower then
    mkEpistemicSubject "self" None INTROSPECTIVE 1.0 "direct" "unfalsifiable"
  (* Check testimonial *)
  else if some_pattern_found TESTIMONIAL_PATTERNS text_lower then
    mkEpistemicSubject "other" None TESTIMONIAL 0.7 "reported" "partial"
  (* Check authority *)
  else if some_pattern_found AUTHORITY_PATTERNS text_lower then
    mkEpistemicSubject "authority" None A_POSTERIORI 0.85 "reported" "verifiable"
  (* Check a priori *)
  else if some_pattern_found APRIORI_PATTERNS text_lower then
    mkEpistemicSubject "universal" None A_PRIORI 1.0 "direct" "verifiable"
  (* Check normative *)
  else if some_pattern_found NORMATIVE_PATTERNS text_lower then
    mkEpistemicSubject "anonymous" None NORMATIVE 0.6 "inferred" "partial"
  (* Default: anonymous factual claim *)
  else
    mkEpistemicSubject "anonymous" None A_POSTERIORI 0.8 "direct" "verifiable".

(** ** The classifier *)

(** The dict that [classify] returns.  [verification_cascade] reads
    ["tier"] and ["resistance"] by subscript and ["verifiability"] with
    [.get(..., "partial")], so that one key may be absent from a
    classification handed to the cascade. *)
Record Classification : Type := mkClassification {
  cls_symbol : string;
  cls_name : string;
  cls_tier : Z;
  cls_tier_name : string;
  cls_resistance : float;
  cls_epistemic_subject : string;
  cls_epistemic_level : string;
  cls_verifiability : option string;
  cls_confidence : float
}.

(** [d[k]] on an insertion-ordered dict; [None] is [KeyError]. *)
Fixpoint dict_get {V : Type} (d : list (string * V)) (k : string) : option V :=
  match d with
  | [] => None
  | (k', v) :: rest => if (k' =? k) then Some v else dict_get rest k
  end.

(** [sum(1 for kw in token.keywords if kw in text_lower)] *)
Definition token_score (token : TruthToken) (text_lower : string) : nat :=
  Py.count (fun kw => Py.contains kw text_lower) (tok_keywords token).

(** The scoring loop.  The keys of the token table are distinct, so
    [scores[symbol] = score] always appends. *)
Fixpoint score_tokens (tokens : list (string * TruthToken)) (text_lower : string)
  : list (string * nat) :=
  match tokens with
  | [] => []
  | (symbol, token) :: rest =>
      let score := token_score token text_lower in
      if (0 <? score)%nat
      then (symbol, score) :: score_tokens rest text_lower
      else score_tokens rest text_lower
  end.

(** [max(scores, key=scores.get)]: the first key, in iteration order,
    whose value no later key exceeds. *)
Fixpoint max_from (best : string * nat) (rest : list (string * nat)) : string :=
  match rest with
  | [] => fst best
  | kv :: rest' =>
      if (snd best <? snd kv)%nat then max_from kv rest' else max_from best rest'
  end.

Definition max_key (scores : list (string * nat)) : option string :=
  match scores with
  | [] => None                      (* ValueError: max() of an empty dict *)
  | kv :: rest => Some (max_from kv rest)
  end.

Notation "x <- e ;; k" := (match e with Some x => k | None => None end)
  (at level 61, e at next level, right associativity).

(** Steps 2 and 3 of [classify]: the winning symbol and its token. *)
Definition best_match (text_lower : string) : option (string * TruthToken) :=
  let scores := score_tokens TTO_TOKENS text_lower in
  match scores with
  | _ :: _ =>
      best_symbol <- max_key scores ;;
      best_token <- dict_get TTO_TOKENS best_symbol ;;
      Some (best_symbol, best_token)
  | [] =>
      (* Default to AtomicFactTT *)
      let best_symbol := "AtomicFactTT" in
      fallback <- dict_get TTO_TOKENS "UniversalTT" ;;
      Some (best_symbol,
            match dict_get TTO_TOKENS best_symbol with
            | Some token => token
            | None => fallback
            end)
  end.

(** Step 4 of [classify]: adjust the tier to the epistemic level. *)
Definition adjust_tier (level : EpistemicLevel) (native : TruthTier) : TruthTier :=
  if level_eqb level INTROSPECTIVE then T10_COGNITIVE
  else if level_eqb level TESTIMONIAL then T8_TESTIMONIAL
  else if level_eqb level SPECULATIVE then T11_SPECULATIVE
  else native.

Definition classify (text : string) : option Classification :=
  let text_lower := Py.lower text in
  let epistemic := detect text in
  best <- best_match text_lower ;;
  let '(best_symbol, best_token) := best in
  let final_tier := adjust_tier (epistemic_level epistemic) (tok_tier best_token) in
  Some {| cls_symbol := best_symbol;
          cls_name := tok_name best_token;
          cls_tier := tier_num final_tier;
          cls_tier_name := tier_name final_tier;
          cls_resistance := resistance final_tier;
          cls_epistemic_subject := subject_type epistemic;
          cls_epistemic_level := level_value (epistemic_level epistemic);
          cls_verifiability := Some (verifiability epistemic);
          cls_confidence := confidence epistemic |}.

(** ** The verification cascade *)

Record VerificationResult : Type := mkVerificationResult {
  verified : bool;
  vr_confidence : float;
  method : string;
  vr_tier : Z;
  vr_resistance : float;
  details : list (string * string)
}.

(** [tier in [a, b, ...]] *)
Definition tier_in (tier : Z) (band : list Z) : bool := existsb (Z.eqb tier) band.

(** [any(kw in claim.lower() for kw in kws)] *)
Definition any_keyword (kws : list string) (claim : string) : bool :=
  Py.any (fun kw => Py.contains kw (Py.lower claim)) kws.

Definition matched_axiom (axiom_match : option string) : list (string * string) :=
  match axiom_match with
  | Some axiom => [("matched_axiom", axiom)]
  | None => []
  end.

(** The cascade is a sequence of [if] blocks, each of which may return;
    a block that does not return falls through to the next one.  The
    blocks are written here last to first, each taking what follows it. *)

Definition default_pass (tier : Z) (resistance : float) : VerificationResult :=
  mkVerificationResult true 0.60 "default_pass" tier resistance [].

Definition band_T12 (tier : Z) (resistance : float) : VerificationResult :=
  if (tier =? 12)%Z then
    mkVerificationResult false 0.0 "integrity_violation_detected" tier resistance
      [("note", "Potential misinformation - requires full verification")]
  else default_pass tier resistance.

Definition band_T9_T11 (classification : Classification) (tier : Z) (resistance : float)
  : VerificationResult :=
  if tier_in tier [9; 10; 11]%Z then
    let verifiability :=
      match cls_verifiability classification with
      | Some v => v
      | None => "partial"
      end in
    if (verifiability =? "unfalsifiable") then
      mkVerificationResult true 0.50 "epistemic_acknowledgment" tier resistance
        [("note", "Subjective/speculative - cannot independently verify")]
    else
      mkVerificationResult true 0.40 "speculative_flagged" tier resistance
        [("note", "Flagged as speculative")]
  else band_T12 tier resistance.

Definition band_T6_T8 (classification : Classification) (tier : Z) (resistance : float)
  : VerificationResult :=
  if tier_in tier [6; 7; 8]%Z then
    mkVerificationResult true 0.70 "context_acknowledged" tier resistance
      [("note", "Context-dependent claim - confidence limited")]
  else band_T9_T11 classification tier resistance.

Definition band_T3_T5 (claim : string) (classification : Classification)
           (tier : Z) (resistance : float) : VerificationResult :=
  let next := band_T6_T8 classification tier resistance in
  if tier_in tier [3; 4; 5]%Z then
    let scientific_keywords := ["law"; "constant"; "measured"; "documented"; "recorded"] in
    if any_keyword scientific_keywords claim then
      mkVerificationResult true 0.85 "pattern_verified" tier resistance []
    else next
  else next.

Definition band_T1_T2 (claim : string) (classification : Classification)
           (tier : Z) (resistance : float) : VerificationResult :=
  let next := band_T3_T5 claim classification tier resistance in
  if tier_in tier [1; 2]%Z then
    let axiom_match := check_truth_floor claim in
    if Py.truthy axiom_match then
      mkVerificationResult true 0.99 "truth_floor_constant" tier resistance
        (matched_axiom axiom_match)
    else if Re.search MATH_PATTERN claim then
      mkVerificationResult true 0.95 "mathematical_pattern" tier resistance []
    else if any_keyword ["therefore"; "thus"; "implies"; "if then"] claim then
      mkVerificationResult true 0.90 "logical_pattern" tier resistance []
    else next
  else next.

Definition verification_cascade (claim : string) (classification : Classification)
  : VerificationResult :=
  let tier := cls_tier classification in
  let resistance := cls_resistance classification in
  let next := band_T1_T2 claim classification tier resistance in
  if (tier =? 0)%Z then
    let axiom_match := check_truth_floor claim in
    if Py.truthy axiom_match then
      mkVerificationResult true 1.0 "truth_floor_axiom" tier resistance
        (matched_axiom axiom_match)
    else if any_keyword ["exists"; "a = a"; "identical"] claim then
      mkVerificationResult true 1.0 "tautology" tier resistance []
    else next
  else next.

(** ** The stages of the engine that call no provider *)

Definition ANALYSIS_DIMENSIONS : list (string * string) :=
  [ ("logical", "Analyze from logical/factual perspective. What are the facts and evidence?");
    ("emotional", "Analyze emotional dimensions. What feelings and impacts are involved?");
    ("ethical", "Analyze ethical/moral implications. What's right or wrong here?");
    ("temporal", "Analyze temporal aspects. Short-term vs long-term consequences?");
    ("stakeholder", "Analyze stakeholder perspectives. Who is affected and how?");
    ("risk", "Analyze risks. What could go wrong? What's the upside?");
    ("creative", "Analyze creatively. What alternative solutions exist?") ].

(** The dict of [_aware].  [_energize] reads ["word_count"],
    ["is_question"] and ["epistemic_level"] with [.get] and a default, so
    these keys may be absent from an awareness handed to it. *)
Record Awareness : Type := mkAwareness {
  raw_input : string;
  word_count : option Z;
  is_question : option bool;
  aw_epistemic_subject : string;
  aw_epistemic_level : option string;
  contains_claim : bool
}.

Definition _aware (input_problem : string) : Awareness :=
  let epistemic := detect input_problem in
  {| raw_input := input_problem;
     word_count := Some (Z.of_nat (List.length (Py.split input_problem)));
     is_question := Some (Py.contains "?" input_problem);
     aw_epistemic_subject := subject_type epistemic;
     aw_epistemic_level := Some (level_value (epistemic_level epistemic));
     contains_claim := negb (Py.endswith input_problem "?") |}.

Record EnergyAllocation : Type := mkEnergyAllocation {
  complexity : string;
  requires_deep_analysis : bool;
  requires_verification : bool;
  allocated_dimensions : Z
}.

Definition _energize (awareness : Awareness) : EnergyAllocation :=
  let word_count := match word_count awareness with Some n => n | None => 0%Z end in
  let epistemic_level :=
    match aw_epistemic_level awareness with Some l => l | None => "a_posteriori" end in
  (* complexity = "low"; requires_deep_analysis = False *)
  let '(complexity, requires_deep_analysis) :=
    if (50 <? word_count)%Z || Py.mem epistemic_level ["testimonial"; "normative"]
    then ("high", true)
    else if (20 <? word_count)%Z then ("medium", false)
    else ("low", false) in
  (* requires_verification = True *)
  let requires_verification :=
    if (epistemic_level =? "a_priori") then false else true in
  {| complexity := complexity;
     requires_deep_analysis := requires_deep_analysis;
     requires_verification := requires_verification;
     allocated_dimensions :=
       if requires_deep_analysis
       then Z.of_nat (List.length ANALYSIS_DIMENSIONS) else 0%Z |}.

(** [{**classification, "truth_floor_match": truth_floor_match}] *)
Record Recognition : Type := mkRecognition {
  rec_classification : Classification;
  truth_floor_match : option string
}.

Definition _recognize (input_problem : string) : option Recognition :=
  classification <- classify input_problem ;;
  let truth_floor_match := check_truth_floor input_problem in
  Some {| rec_classification := classification;
          truth_floor_match := truth_floor_match |}.

(** The cascade reads the keys of the classification out of the
    recognition dict; the client and the model it is handed are unused. *)
Definition _solve (input_problem : string) (recognition : Recognition)
  : VerificationResult :=
  verification_cascade input_problem (rec_classification recognition).

(** ** The stages that call the provider, and the orchestrator *)

(** The values of the [thinking] dict: [True] under ["skipped"], text
    elsewhere. *)
Inductive PyVal : Type :=
| VBool (b : bool)
| VStr (s : string).

(** Truth value of [d.get(k)]. *)
Definition val_truthy (v : option PyVal) : bool :=
  match v with
  | Some (VBool b) => b
  | Some (VStr s) => negb (s =? "")
  | None => false
  end.

(** [d[k] = v] on an insertion-ordered dict: a present key keeps its
    place, a new key goes last. *)
Fixpoint dict_set {V : Type} (d : list (string * V)) (k : string) (v : V)
  : list (string * V) :=
  match d with
  | [] => [(k, v)]
  | (k', v') :: rest =>
      if (k' =? k) then (k', v) :: rest else (k', v') :: dict_set rest k v
  end.

Record Attainment : Type := mkAttainment {
  goal_achieved : bool;
  confidence_level : string;
  verification_method : string;
  caveats_needed : bool
}.

(** [recognition.get(key)] inside an f-string: the text of the value, or
    ["None"] when the recognition dict is still empty. *)
Definition rec_get (field : Classification -> string) (recognition : option Recognition)
  : string :=
  match recognition with
  | Some r => field (rec_classification r)
  | None => "None"
  end.

Definition str_verifiability (c : Classification) : string :=
  match cls_verifiability c with
  | Some v => v
  | None => "None"
  end.

Section Engine.

(** Everything outside the process: the provider, the clock. *)
Variable World : Type.

(** The body of a [try] block around a provider call: the dispatch on
    the shape of the client, the request with the engine's model (and
    [max_tokens], where the provider takes one) and the extraction of the
    text.  [inl] is the text, [inr] is [str(e)] of the exception raised. *)
Variable complete : Z -> string -> World -> (string + string) * World.

(** [time.time()] and [datetime.now()] *)
Variable time_time : World -> float * World.
Variable datetime : Type.
Variable datetime_now : World -> datetime * World.
Variable isoformat : datetime -> string.

(** [format(x, ".0%")], [format(x, ".3f")], [str(x)] on floats, and
    [json.dumps(d, indent=2)]. *)
Variable format_percent : float -> string.
Variable format_3f : float -> string.
Variable str_float : float -> string.
Variable json_dumps : list (string * PyVal) -> string.

(** The loop of [multidimensional_analysis]. *)
Fixpoint analysis_loop (dimensions : list (string * string)) (elements : string)
         (analysis : list (string * string)) (w : World)
  : list (string * string) * World :=
  match dimensions with
  | [] => (analysis, w)
  | (dim_name, dim_prompt) :: rest =>
      let prompt :=
        String.concat ""
          [dim_prompt; Py.LF; Py.LF; "Context: "; elements; Py.LF; Py.LF;
           "Provide concise analysis (2-3 sentences)."] in
      let '(outcome, w') := complete 200 prompt w in
      let analysis' :=
        match outcome with
        | inl content => dict_set analysis dim_name content
        | inr e => dict_set analysis dim_name ("[Analysis failed: " ++ e ++ "]")
        end in
      analysis_loop rest elements analysis' w'
  end.

Definition multidimensional_analysis (elements : string) (w : World)
  : list (string * string) * World :=
  analysis_loop ANALYSIS_DIMENSIONS elements [] w.

Definition _think (input_problem : string) (recognition : option Recognition)
           (w : World) : list (string * string) * World :=
  let elements :=
    String.concat ""
      [ Py.LF; "Problem: "; input_problem; Py.LF; "Classification: ";
        rec_get cls_name recognition; " (Tier ";
        rec_get (fun c => Py.str_int (cls_tier c)) recognition; ")"; Py.LF;
        "Epistemic Level: "; rec_get cls_epistemic_level recognition; Py.LF ] in
  multidimensional_analysis elements w.

Record ReasoningState : Type := mkReasoningState {
  input_problem : string;
  stage : string;
  timestamp : datetime;
  awareness : option Awareness;
  energy_allocation : option EnergyAllocation;
  recognition : option Recognition;
  thinking : list (string * PyVal);
  solution : option VerificationResult;
  action : string;
  attainment : option Attainment;
  total_time_ms : float;
  llm_calls : Z
}.

(** [ReasoningState(input_problem=...)]: empty dicts, no solution. *)
Definition new_state (input_problem : string) (now : datetime) : ReasoningState :=
  mkReasoningState input_problem "AWARE" now None None None [] None "" None 0.0 0.

(** Assignments to the fields of the state. *)
Definition set_stage (v : string) (state : ReasoningState) : ReasoningState :=
  mkReasoningState (input_problem state) v (timestamp state) (awareness state) (energy_allocation state) (recognition state) (thinking state) (solution state) (action state) (attainment state) (total_time_ms state) (llm_calls state).

Definition set_awareness (v : option Awareness) (state : ReasoningState) : ReasoningState :=
  mkReasoningState (input_problem state) (stage state) (timestamp state) v (energy_allocation state) (recognition state) (thinking state) (solution state) (action state) (attainment state) (total_time_ms state) (llm_calls state).

Definition set_energy_allocation (v : option EnergyAllocation) (state : ReasoningState) : ReasoningState :=
  mkReasoningState (input_problem state) (stage state) (timestamp state) (awareness state) v (recognition state) (thinking state) (solution state) (action state) (attainment state) (total_time_ms state) (llm_calls state).

Definition set_recognition (v : option Recognition) (state : ReasoningState) : ReasoningState :=
  mkReasoningState (input_problem state) (stage state) (timestamp state) (awareness state) (energy_allocation state) v (thinking state) (solution state) (action state) (attainment state) (total_time_ms state) (llm_calls state).

Definition set_thinking (v : list (string * PyVal)) (state : ReasoningState) : ReasoningState :=
  mkReasoningState (input_problem state) (stage state) (timestamp state) (awareness state) (energy_allocation state) (recognition state) v (solution state) (action state) (attainment state) (total_time_ms state) (llm_calls state).

Definition set_solution (v : option VerificationResult) (state : ReasoningState) : ReasoningState :=
  mkReasoningState (input_problem state) (stage state) (timestamp state) (awareness state) (energy_allocation state) (recognition state) (thinking state) v (action state) (attainment state) (total_time_ms state) (llm_calls state).

Definition set_action (v : string) (state : ReasoningState) : ReasoningState :=
  mkReasoningState (input_problem state) (stage state) (timestamp state) (awareness state) (energy_allocation state) (recognition state) (thinking state) (solution state) v (attainment state) (total_time_ms state) (llm_calls state).

Definition set_attainment (v : option Attainment) (state : ReasoningState) : ReasoningState :=
  mkReasoningState (input_problem state) (stage state) (timestamp state) (awareness state) (energy_allocation state) (recognition state) (thinking state) (solution state) (action state) v (total_time_ms state) (llm_calls state).

Definition set_total_time_ms (v : float) (state : ReasoningState) : ReasoningState :=
  mkReasoningState (input_problem state) (stage state) (timestamp state) (awareness state) (energy_allocation state) (recognition state) (thinking state) (solution state) (action state) (attainment state) v (llm_calls state).

Definition set_llm_calls (v : Z) (state : ReasoningState) : ReasoningState :=
  mkReasoningState (input_problem state) (stage state) (timestamp state) (awareness state) (energy_allocation state) (recognition state) (thinking state) (solution state) (action state) (attainment state) (total_time_ms state) v.

(** [_act]: reading [solution.verified] of an unset solution raises
    before the [try] block is entered. *)
Definition _act (state : ReasoningState) (w : World) : option (string * World) :=
  solution <- solution state ;;
  let recognition := recognition state in
  let multidimensional :=
    if negb (match thinking state with [] => true | _ :: _ => false end)
       && negb (val_truthy (dict_get (thinking state) "skipped"))
    then "MULTIDIMENSIONAL ANALYSIS:" ++ json_dumps (thinking state)
    else "" in
  let prompt :=
    String.concat ""
      [ "You are a Sovereign Truth Engine. Generate a response based on this verified analysis.";
        Py.LF; Py.LF; "INPUT: "; input_problem state; Py.LF; Py.LF;
        "CLASSIFICATION:"; Py.LF; "- Type: "; rec_get cls_name recognition;
        " (Tier "; rec_get (fun c => Py.str_int (cls_tier c)) recognition;
        " - "; rec_get cls_tier_name recognition; ")"; Py.LF;
        "- Epistemic Level: "; rec_get cls_epistemic_level recognition;
        Py.LF; "- Verifiability: "; rec_get str_verifiability recognition;
        Py.LF; Py.LF; "VERIFICATION:"; Py.LF; "- Verified: ";
        Py.str_bool (verified solution); Py.LF; "- Confidence: ";
        format_percent (vr_confidence solution); Py.LF; "- Method: ";
        method solution; Py.LF; "- Resistance Cost: ";
        str_float (vr_resistance solution); Py.LF; Py.LF; multidimensional;
        Py.LF; Py.LF; "INSTRUCTIONS:"; Py.LF;
        "1. If verified with high confidence (>85%), respond authoritatively";
        Py.LF;
        "2. If moderate confidence (50-85%), respond with appropriate hedging";
        Py.LF; "3. If low confidence or unverified, acknowledge uncertainty";
        Py.LF; "4. Never fabricate - if unknown, say so"; Py.LF;
        "5. Match response depth to tier complexity"; Py.LF; Py.LF;
        "Generate the response:" ] in
  let '(outcome, w') := complete 500 prompt w in
  Some (match outcome with
        | inl content => content
        | inr e => "[Response generation failed: " ++ e ++ "]"
        end, w').

Definition _attain (state : ReasoningState) : option Attainment :=
  solution <- solution state ;;
  Some {| goal_achieved :=
            verified solution && PrimFloat.leb 0.5 (vr_confidence solution);
          confidence_level :=
            if PrimFloat.leb 0.85 (vr_confidence solution) then "high"
            else if PrimFloat.leb 0.5 (vr_confidence solution) then "medium"
            else "low";
          verification_method := method solution;
          caveats_needed := PrimFloat.ltb (vr_confidence solution) 0.85 |}.

Record Stages : Type := mkStages {
  st_aware : option Awareness;
  st_energize : option EnergyAllocation;
  st_recognize : option Recognition;
  st_think : list (string * PyVal);
  st_solve : VerificationResult;
  st_act_response_generated : bool;
  st_attain : option Attainment;
  st_rest_total_time_ms : float;
  st_rest_llm_calls : Z;
  st_rest_cycle_complete : bool
}.

Record Metadata : Type := mkMetadata {
  md_timestamp : string;
  md_total_time_ms : float;
  md_llm_calls : Z;
  md_tier : option Z;
  md_resistance : option float;
  md_thesis_proof : string
}.

Record Result : Type := mkResult {
  res_input : string;
  res_response : string;
  res_stages : Stages;
  res_metadata : Metadata
}.

Definition _compile_result (state : ReasoningState) : option Result :=
  solution <- solution state ;;
  Some {| res_input := input_problem state;
          res_response := action state;
          res_stages :=
            {| st_aware := awareness state;
               st_energize := energy_allocation state;
               st_recognize := recognition state;
               st_think := thinking state;
               st_solve := solution;
               st_act_response_generated := negb (action state =? "");
               st_attain := attainment state;
               st_rest_total_time_ms := total_time_ms state;
               st_rest_llm_calls := llm_calls state;
               st_rest_cycle_complete := true |};
          res_metadata :=
            {| md_timestamp := isoformat (timestamp state);
               md_total_time_ms := total_time_ms state;
               md_llm_calls := llm_calls state;
               md_tier :=
                 match recognition state with
                 | Some r => Some (cls_tier (rec_classification r))
                 | None => None
                 end;
               md_resistance :=
                 match recognition state with
                 | Some r => Some (cls_resistance (rec_classification r))
                 | None => None
                 end;
               md_thesis_proof :=
                 String.concat ""
                   ["T"; rec_get (fun c => Py.str_int (cls_tier c)) (recognition state);
                    " verification cost: "; format_3f (vr_resistance solution)] |} |}.

(** The state that [reason] hands to [_compile_result]. *)
Definition reason_state (input_problem : string) (w : World)
  : option (ReasoningState * World) :=
  let '(start_time, w) := time_time w in
  let '(now, w) := datetime_now w in
  let state := new_state input_problem now in
  (* 1. AWARE *)
  let state := set_stage "AWARE" state in
  let aware := _aware input_problem in
  let state := set_awareness (Some aware) state in
  (* 2. ENERGIZE *)
  let state := set_stage "ENERGIZE" state in
  let energy := _energize aware in
  let state := set_energy_allocation (Some energy) state in
  (* 3. RECOGNIZE *)
  let state := set_stage "RECOGNIZE" state in
  recognized <- _recognize input_problem ;;
  let state := set_recognition (Some recognized) state in
  (* 4. THINK *)
  let state := set_stage "THINK" state in
  let '(state, w) :=
    if requires_deep_analysis energy then
      let '(analysis, w) := _think input_problem (recognition state) w in
      let state := set_thinking (map (fun kv => (fst kv, VStr (snd kv))) analysis) state in
      (set_llm_calls (llm_calls state + Z.of_nat (List.length ANALYSIS_DIMENSIONS)) state, w)
    else
      (set_thinking [("skipped", VBool true);
                     ("reason", VStr "Low complexity - direct verification")] state, w) in
  (* 5. SOLVE *)
  let state := set_stage "SOLVE" state in
  let state := set_solution (Some (_solve input_problem recognized)) state in
  (* 6. ACT *)
  let state := set_stage "ACT" state in
  acted <- _act state w ;;
  let '(response, w) := acted in
  let state := set_action response state in
  let state := set_llm_calls (llm_calls state + 1) state in
  (* 7. ATTAIN *)
  let state := set_stage "ATTAIN" state in
  attained <- _attain state ;;
  let state := set_attainment (Some attained) state in
  (* 8. REST *)
  let state := set_stage "REST" state in
  let '(end_time, w) := time_time w in
  let state :=
    set_total_time_ms (PrimFloat.mul (PrimFloat.sub end_time start_time) 1000) state in
  Some (state, w).

Definition reason (input_problem : string) (w : World) : option (Result * World) :=
  run <- reason_state input_problem w ;;
  let '(state, w) := run in
  result <- _compile_result state ;;
  Some (result, w).

End Engine.

(** ** The REST wrapper ([api.py]) *)

Definition TIER_DESCRIPTIONS : list (Z * string) :=
  [ (0, "Self-evident axioms and tautologies");
    (1, "Mathematical proofs and physical constants");
    (2, "Logical deductions and syllogisms");
    (3, "Established scientific laws and universal facts");
    (4, "Empirical measurements and statistical findings");
    (5, "Documentary evidence and historical records");
    (6, "Context-dependent and domain-specific truths");
    (7, "Time-dependent facts and predictions");
    (8, "Testimonial evidence and reported claims");
    (9, "Social consensus and cultural norms");
    (10, "Personal beliefs and subjective experiences");
    (11, "Speculation and hypothetical scenarios");
    (12, "False or misleading claims (integrity violations)") ]%Z.

Fixpoint int_dict_get {V : Type} (d : list (Z * V)) (k : Z) : option V :=
  match d with
  | [] => None
  | (k', v) :: rest => if (k' =? k)%Z then Some v else int_dict_get rest k
  end.

Definition _get_tier_description (tier_num : Z) : string :=
  match int_dict_get TIER_DESCRIPTIONS tier_num with
  | Some description => description
  | None => "Unknown tier"
  end.

Record TierInfo : Type := mkTierInfo {
  ti_tier : Z;
  ti_name : string;
  ti_resistance : float;
  ti_description : string
}.

(** The ["tiers"] and ["count"] entries of [get_tiers]. *)
Definition get_tiers : list TierInfo * Z :=
  let tiers :=
    map (fun tier =>
           {| ti_tier := tier_num tier;
              ti_name := tier_name tier;
              ti_resistance := resistance tier;
              ti_description := _get_tier_description (tier_num tier) |})
        TruthTier_members in
  (tiers, Z.of_nat (List.length tiers)).

(** What a handler raises. *)
Inductive Raised : Type :=
| HTTPException (status_code : Z) (detail : string)
| OtherException (message : string).

Section ClassifyEndpoint.

(** [str(e)], which belongs to the web framework. *)
Variable str_exception : Raised -> string.

(** The body of the [try] block of [classify_text].  A failing
    subscript inside [classify] would surface here as an exception. *)
Definition classify_text_body (request : list (string * string))
  : (string * Classification) + Raised :=
  let text := match dict_get request "text" with Some t => t | None => "" end in
  if (text =? "") then
    inr (HTTPException 400 "Text is required")
  else
    match classify text with
    | Some classification => inl (text, classification)
    | None => inr (OtherException "KeyError")
    end.

(** [except Exception as e]: every exception of the body, the
    [HTTPException] raised in it included, is turned into a 500. *)
Definition classify_text (request : list (string * string))
  : (string * Classification) + Raised :=
  match classify_text_body request with
  | inl response => inl response
  | inr e => inr (HTTPException 500 ("Classification failed: " ++ str_exception e))
  end.

End ClassifyEndpoint.

(** ** Definitions used to state the properties *)

(** The cascade of the specification, as a priority table: the pattern
    groups in their fixed order, each with the record it yields. *)
Definition DETECTION_ORDER : list (list Re.regex * EpistemicSubject) :=
  [ (INTROSPECTIVE_PATTERNS,
     mkEpistemicSubject "self" None INTROSPECTIVE 1.0 "direct" "unfalsifiable");
    (TESTIMONIAL_PATTERNS,
     mkEpistemicSubject "other" None TESTIMONIAL 0.7 "reported" "partial");
    (AUTHORITY_PATTERNS,
     mkEpistemicSubject "authority" None A_POSTERIORI 0.85 "reported" "verifiable");
    (APRIORI_PATTERNS,
     mkEpistemicSubject "universal" None A_PRIORI 1.0 "direct" "verifiable");
    (NORMATIVE_PATTERNS,
     mkEpistemicSubject "anonymous" None NORMATIVE 0.6 "inferred" "partial") ].

Definition DEFAULT_SUBJECT : EpistemicSubject :=
  mkEpistemicSubject "anonymous" None A_POSTERIORI 0.8 "direct" "verifiable".

(** A group matches when one of its patterns is found in the text. *)
Definition group_matches (text_lower : string) (patterns : list Re.regex) : bool :=
  existsb (fun pattern => Re.search pattern text_lower) patterns.

(** First match wins: the record of the first group of the table that
    matches the lower-cased text, the default record when none does. *)
Definition first_match_wins (text : string) : EpistemicSubject :=
  match find (fun group => group_matches (Py.lower text) (fst group)) DETECTION_ORDER with
  | Some group => snd group
  | None => DEFAULT_SUBJECT
  end.

(** The ratio test of the specification, in integers: at least 60% of
    [len] keywords are among the [matches] found. *)
Definition at_least_60_percent (matches len : nat) : bool :=
  (6 * len <=? 10 * matches)%nat.

(** ** Axiom matching as the specification words it

    Written from the words of the specification, without the functions
    of the embedding: the words of a text, the keyword set of an axiom,
    and the two readings of "a keyword is present in the claim". *)

Module Spec.

Definition UPPER : string := "ABCDEFGHIJKLMNOPQRSTUVWXYZ".
Definition LOWER : string := "abcdefghijklmnopqrstuvwxyz".

(** The character of [to] at the place of [c] in [from]; [c] itself when
    it is not in [from]. *)
Fixpoint translate (from to : string) (c : ascii) : ascii :=
  match from, to with
  | String a from', String b to' =>
      if Ascii.eqb c a then b else translate from' to' c
  | _, _ => c
  end.

Fixpoint lowercase (s : string) : string :=
  match s with
  | EmptyString => EmptyString
  | String c s' => String (translate UPPER LOWER c) (lowercase s')
  end.

(** TAB, LF, VT, FF, CR, the four separators FS GS RS US, and SPACE. *)
Definition BLANKS : list ascii :=
  map ascii_of_nat [9; 10; 11; 12; 13; 28; 29; 30; 31; 32]%nat.

Definition blank (c : ascii) : bool := existsb (Ascii.eqb c) BLANKS.

(** The words of a text: its maximal runs of characters that are not
    blank, from left to right. *)
Fixpoint words (s : string) : list string :=
  match s with
  | EmptyString => []
  | String c rest =>
      if blank c then words rest
      else match rest with
           | EmptyString => [String c EmptyString]
           | String d _ =>
               if blank d then String c EmptyString :: words rest
               else match words rest with
                    | w :: ws => String c w :: ws
                    | [] => [String c EmptyString]
                    end
           end
  end.

Definition STOP : list string := ["the"; "a"; "is"; "of"; "in"; "to"; "and"; "an"].

(** The keyword set of an axiom: its lower-cased words minus the stop
    words, each once. *)
Definition keywords (axiom : string) : list string :=
  nodup string_dec
        (filter (fun w => negb (existsb (String.eqb w) STOP)) (words (lowercase axiom))).

Fixpoint starts_with (kw text : string) : bool :=
  match kw with
  | EmptyString => true
  | String a kw' =>
      match text with
      | EmptyString => false
      | String b text' => Ascii.eqb a b && starts_with kw' text'
      end
  end.

(** The text and what remains of it after each of its characters. *)
Fixpoint tails (text : string) : list string :=
  text :: match text with
          | EmptyString => []
          | String _ text' => tails text'
          end.

(** [kw] occurs somewhere in [text], inside a longer word or not. *)
Definition occurs_in (kw text : string) : bool :=
  existsb (starts_with kw) (tails text).

(** [kw] is one of the words of [text]. *)
Definition is_word_of (kw text : string) : bool :=
  existsb (String.eqb kw) (words text).

(** The first axiom of the registry at least 60% of whose keywords are
    present in the lower-cased claim, for a given reading of "present". *)
Definition first_match (present : string -> string -> bool) (claim_lower : string)
  : option string :=
  find (fun axiom =>
          at_least_60_percent
            (List.length (filter (fun kw => present kw claim_lower) (keywords axiom)))
            (List.length (keywords axiom)))
       TRUTH_FLOOR.

(** Section 4.1 as written: the claim is tokenised to its set of
    lower-cased words, and a keyword is present when it is one of them. *)
Definition match_word_set (claim : string) : option string :=
  first_match is_word_of (Py.lower claim).

(** The amended reading: a keyword is present when it occurs in the
    lower-cased text of the claim. *)
Definition match_substrings (claim : string) : option string :=
  first_match occurs_in (Py.lower claim).

End Spec.

(** The table of all comparisons for keyword sets of up to 16 words: the
    binary64 product [len * 0.6] against the exact ratio. *)
Definition threshold_table_ok : bool :=
  forallb (fun len =>
    forallb (fun matches =>
      Bool.eqb (reaches_threshold matches len) (at_least_60_percent matches len))
      (List.seq 0 (S len)))
    (List.seq 0 17).

Definition short_axiom (axiom : string) : bool :=
  (List.length (axiom_words axiom) <=? 16)%nat.

Definition ATOMIC_FACT : TruthToken :=
  mkTruthToken "AtomicFactTT" T3_EMPIRICAL_STABLE "Atomic Fact"
               "Simple verifiable fact" ["is"; "has"; "contains"].

(** No keyword of any token occurs in the text, as a computation on the
    token table. *)
Definition no_keyword_hit (text_lower : string) : bool :=
  forallb (fun entry =>
             forallb (fun kw => negb (Py.contains kw text_lower))
                     (tok_keywords (snd entry)))
          TTO_TOKENS.

Definition sample_T12 : Classification :=
  {| cls_symbol := "FalseTT"; cls_name := "False"; cls_tier := 12;
     cls_tier_name := "Integrity Violation"; cls_resistance := 1.0;
     cls_epistemic_subject := "anonymous"; cls_epistemic_level := "a_posteriori";
     cls_verifiability := Some "verifiable"; cls_confidence := 0.8 |}.

Definition sample_T1 : Classification :=
  {| cls_symbol := "MathematicalTT"; cls_name := "Mathematical"; cls_tier := 1;
     cls_tier_name := "Mathematical"; cls_resistance := 0.001;
     cls_epistemic_subject := "universal"; cls_epistemic_level := "a_priori";
     cls_verifiability := None; cls_confidence := 1.0 |}.

(** The method labels of the cascade, each with the verified flag and
    the confidence it comes with. *)
Definition CASCADE_OUTCOMES : list (string * (bool * float)) :=
  [ ("truth_floor_axiom", (true, 1.0));
    ("tautology", (true, 1.0));
    ("truth_floor_constant", (true, 0.99));
    ("mathematical_pattern", (true, 0.95));
    ("logical_pattern", (true, 0.90));
    ("pattern_verified", (true, 0.85));
    ("context_acknowledged", (true, 0.70));
    ("epistemic_acknowledgment", (true, 0.50));
    ("speculative_flagged", (true, 0.40));
    ("integrity_violation_detected", (false, 0.0));
    ("default_pass", (true, 0.60)) ]%float.

(** The returns of the cascade: each rule with the tiers at which it
    can fire and the result it builds. *)
Inductive fires (tier : Z) (res : float) : VerificationResult -> Prop :=
| fires_axiom (d : list (string * string)) :
    tier = 0%Z ->
    fires tier res (mkVerificationResult true 1.0 "truth_floor_axiom" tier res d)
| fires_tautology :
    tier = 0%Z ->
    fires tier res (mkVerificationResult true 1.0 "tautology" tier res [])
| fires_constant (d : list (string * string)) :
    (1 <= tier <= 2)%Z ->
    fires tier res (mkVerificationResult true 0.99 "truth_floor_constant" tier res d)
| fires_mathematical :
    (1 <= tier <= 2)%Z ->
    fires tier res (mkVerificationResult true 0.95 "mathematical_pattern" tier res [])
| fires_logical :
    (1 <= tier <= 2)%Z ->
    fires tier res (mkVerificationResult true 0.90 "logical_pattern" tier res [])
| fires_pattern :
    (3 <= tier <= 5)%Z ->
    fires tier res (mkVerificationResult true 0.85 "pattern_verified" tier res [])
| fires_context (d : list (string * string)) :
    (6 <= tier <= 8)%Z ->
    fires tier res (mkVerificationResult true 0.70 "context_acknowledged" tier res d)
| fires_epistemic (d : list (string * string)) :
    (9 <= tier <= 11)%Z ->
    fires tier res (mkVerificationResult true 0.50 "epistemic_acknowledgment" tier res d)
| fires_speculative (d : list (string * string)) :
    (9 <= tier <= 11)%Z ->
    fires tier res (mkVerificationResult true 0.40 "speculative_flagged" tier res d)
| fires_integrity (d : list (string * string)) :
    tier = 12%Z ->
    fires tier res
          (mkVerificationResult false 0.0 "integrity_violation_detected" tier res d)
| fires_default :
    ~ (6 <= tier <= 12)%Z ->
    fires tier res (mkVerificationResult true 0.60 "default_pass" tier res []).

(** * Properties *)

(** ** Tiers *)

Lemma tier_num_members :
  map tier_num TruthTier_members = [0; 1; 2; 3; 4; 5; 6; 7; 8; 9; 10; 11; 12]%Z.
Proof. reflexivity. Qed.

Lemma TruthTier_members_complete (t : TruthTier) : In t TruthTier_members.
Proof. destruct t; simpl; tauto. Qed.

(** C6. Over the 13 tiers, resistance does not decrease when the rank
    increases; the resistance of T0 is 0.0 and that of T12 is 1.0. *)
Theorem resistance_monotone (t1 t2 : TruthTier)
        (Hrank : (tier_num t1 <= tier_num t2)%Z) :
  PrimFloat.leb (resistance t1) (resistance t2) = true
  /\ resistance T0_AXIOMATIC = 0.0%float
  /\ resistance T12_INTEGRITY = 1.0%float.
Proof.
  split; [ | split; reflexivity ].
  destruct t1, t2; simpl in Hrank; try lia; vm_compute; reflexivity.
Qed.

Lemma resistance_monotone_witness :
  PrimFloat.leb (resistance T3_EMPIRICAL_STABLE) (resistance T8_TESTIMONIAL) = true
  /\ resistance T0_AXIOMATIC = 0.0%float
  /\ resistance T12_INTEGRITY = 1.0%float.
Proof.
  apply (resistance_monotone T3_EMPIRICAL_STABLE T8_TESTIMONIAL).
  simpl. lia.
Defined.

(** ** The verification cascade, band by band *)

Lemma tier_in_In (tier : Z) (band : list Z) :
  tier_in tier band = true -> In tier band.
Proof.
  unfold tier_in. rewrite existsb_exists.
  intros [x [Hin Heq]]. apply Z.eqb_eq in Heq. now subst.
Qed.

(** A band that has fired puts the tier among its members, none of
    which is 12. *)
Ltac band_off H :=
  apply tier_in_In in H; simpl in H;
  symmetry; apply negb_true_iff, Z.eqb_neq; lia.

Lemma band_T12_verified (tier : Z) (res : float) :
  verified (band_T12 tier res) = negb (tier =? 12)%Z.
Proof.
  unfold band_T12. destruct (tier =? 12)%Z; reflexivity.
Qed.

Lemma band_T9_T11_verified (c : Classification) (tier : Z) (res : float) :
  verified (band_T9_T11 c tier res) = negb (tier =? 12)%Z.
Proof.
  unfold band_T9_T11.
  destruct (tier_in tier [9; 10; 11]%Z) eqn:Hband.
  - destruct (_ =? "unfalsifiable"); cbn [verified]; band_off Hband.
  - apply band_T12_verified.
Qed.

Lemma band_T6_T8_verified (c : Classification) (tier : Z) (res : float) :
  verified (band_T6_T8 c tier res) = negb (tier =? 12)%Z.
Proof.
  unfold band_T6_T8.
  destruct (tier_in tier [6; 7; 8]%Z) eqn:Hband.
  - cbn [verified]. band_off Hband.
  - apply band_T9_T11_verified.
Qed.

Lemma band_T3_T5_verified (claim : string) (c : Classification) (tier : Z) (res : float) :
  verified (band_T3_T5 claim c tier res) = negb (tier =? 12)%Z.
Proof.
  unfold band_T3_T5. cbv zeta.
  destruct (tier_in tier [3; 4; 5]%Z) eqn:Hband.
  - destruct (any_keyword _ claim).
    + cbn [verified]. band_off Hband.
    + apply band_T6_T8_verified.
  - apply band_T6_T8_verified.
Qed.

Lemma band_T1_T2_verified (claim : string) (c : Classification) (tier : Z) (res : float) :
  verified (band_T1_T2 claim c tier res) = negb (tier =? 12)%Z.
Proof.
  unfold band_T1_T2. cbv zeta.
  destruct (tier_in tier [1; 2]%Z) eqn:Hband.
  - destruct (Py.truthy _); [ cbn [verified]; band_off Hband | ].
    destruct (Re.search _ claim); [ cbn [verified]; band_off Hband | ].
    destruct (any_keyword _ claim); [ cbn [verified]; band_off Hband | ].
    apply band_T3_T5_verified.
  - apply band_T3_T5_verified.
Qed.

Lemma cascade_verified (claim : string) (c : Classification) :
  verified (verification_cascade claim c) = negb (cls_tier c =? 12)%Z.
Proof.
  unfold verification_cascade. cbv zeta.
  destruct (cls_tier c =? 0)%Z eqn:Hzero.
  - apply Z.eqb_eq in Hzero.
    destruct (Py.truthy _); [ cbn [verified]; now rewrite Hzero | ].
    destruct (any_keyword _ claim); [ cbn [verified]; now rewrite Hzero | ].
    apply band_T1_T2_verified.
  - apply band_T1_T2_verified.
Qed.

(** At tier 12 no earlier band applies. *)
Lemma cascade_at_tier12 (claim : string) (c : Classification) :
  cls_tier c = 12%Z ->
  verification_cascade claim c = band_T12 12 (cls_resistance c).
Proof.
  intros H12.
  unfold verification_cascade, band_T1_T2, band_T3_T5, band_T6_T8, band_T9_T11.
  rewrite H12. reflexivity.
Qed.

(** C2. Whatever the claim says, a classification of tier 12 is not
    verified: confidence 0.0, method "integrity_violation_detected". *)
Theorem tier12_never_passes (claim : string) (c : Classification)
        (H12 : cls_tier c = 12%Z) :
  verified (verification_cascade claim c) = false
  /\ vr_confidence (verification_cascade claim c) = 0.0%float
  /\ method (verification_cascade claim c) = "integrity_violation_detected".
Proof.
  rewrite (cascade_at_tier12 claim c H12). repeat split.
Qed.

Lemma tier12_never_passes_witness :
  verified (verification_cascade "Energy is conserved" sample_T12) = false
  /\ vr_confidence (verification_cascade "Energy is conserved" sample_T12) = 0.0%float
  /\ method (verification_cascade "Energy is conserved" sample_T12)
     = "integrity_violation_detected".
Proof.
  apply (tier12_never_passes "Energy is conserved" sample_T12).
  reflexivity.
Defined.

(** C9. For a tier in 0..11 the cascade answers verified = true, and it
    answers verified = false exactly when the tier is 12. *)
Theorem verified_false_iff_tier12 (claim : string) (c : Classification) :
  (verified (verification_cascade claim c) = false <-> cls_tier c = 12%Z)
  /\ ((0 <= cls_tier c <= 11)%Z -> verified (verification_cascade claim c) = true).
Proof.
  rewrite cascade_verified. split.
  - rewrite negb_false_iff. apply Z.eqb_eq.
  - intros Hrange. apply negb_true_iff, Z.eqb_neq. lia.
Qed.

Lemma verified_false_iff_tier12_witness :
  verified (verification_cascade "nothing to see" sample_T12) = false
  /\ verified (verification_cascade "nothing to see" sample_T1) = true.
Proof.
  split.
  - apply (proj1 (verified_false_iff_tier12 "nothing to see" sample_T12)). reflexivity.
  - apply (proj2 (verified_false_iff_tier12 "nothing to see" sample_T1)). simpl. lia.
Defined.

(** ** Axiom matching *)

(** The keyword set of an axiom: its lower-cased words that are not stop
    words, each once. *)
Lemma mem_In (w : string) (l : list string) : Py.mem w l = true <-> In w l.
Proof.
  unfold Py.mem. rewrite existsb_exists. split.
  - intros [x [Hin Heq]]. apply String.eqb_eq in Heq. now subst.
  - intros Hin. exists w. split; [ assumption | apply String.eqb_refl ].
Qed.

Lemma axiom_words_spec (axiom w : string) :
  In w (axiom_words axiom)
  <-> In w (Py.split (Py.lower axiom)) /\ ~ In w STOP_WORDS.
Proof.
  unfold axiom_words, Py.set_diff, Py.set.
  rewrite filter_In, nodup_In, negb_true_iff.
  rewrite <- (mem_In w STOP_WORDS).
  destruct (Py.mem w STOP_WORDS); intuition congruence.
Qed.

Lemma axiom_words_NoDup (axiom : string) : NoDup (axiom_words axiom).
Proof.
  unfold axiom_words, Py.set_diff, Py.set.
  apply NoDup_filter, NoDup_nodup.
Qed.

Lemma count_le {A : Type} (p : A -> bool) (l : list A) :
  (Py.count p l <= List.length l)%nat.
Proof.
  unfold Py.count. induction l as [ | x l IH ]; simpl.
  - lia.
  - destruct (p x); simpl; lia.
Qed.

Lemma reaches_threshold_exact (matches len : nat) :
  (len <= 16)%nat -> (matches <= len)%nat ->
  reaches_threshold matches len = at_least_60_percent matches len.
Proof.
  intros Hlen Hm.
  assert (Htab : threshold_table_ok = true) by (vm_compute; reflexivity).
  unfold threshold_table_ok in Htab.
  rewrite forallb_forall in Htab.
  specialize (Htab len). rewrite in_seq in Htab.
  assert (Hrow := Htab ltac:(lia)). clear Htab.
  rewrite forallb_forall in Hrow.
  specialize (Hrow matches). rewrite in_seq in Hrow.
  apply Bool.eqb_prop. apply Hrow. lia.
Qed.

(** The loop of [check_truth_floor] returns the first axiom, in the order
    of the list, that passes the ratio test. *)
Lemma check_truth_floor_loop_find (axioms : list string) (claim_lower : string) :
  forallb short_axiom axioms = true ->
  check_truth_floor_loop axioms claim_lower
  = find (fun axiom =>
            at_least_60_percent (axiom_matches axiom claim_lower)
                                (List.length (axiom_words axiom)))
         axioms.
Proof.
  induction axioms as [ | axiom rest IH ]; intros Hshort.
  - reflexivity.
  - cbn [forallb] in Hshort. apply andb_true_iff in Hshort.
    destruct Hshort as [Hax Hrest].
    cbn [check_truth_floor_loop find].
    rewrite reaches_threshold_exact.
    + rewrite (IH Hrest). reflexivity.
    + apply Nat.leb_le. exact Hax.
    + apply count_le.
Qed.

(** The matcher as a search, for any lower-cased claim. *)
Lemma check_truth_floor_find (claim : string) :
  check_truth_floor claim
  = find (fun axiom =>
            at_least_60_percent (axiom_matches axiom (Py.lower claim))
                                (List.length (axiom_words axiom)))
         TRUTH_FLOOR.
Proof.
  unfold check_truth_floor. cbv zeta.
  apply check_truth_floor_loop_find. vm_compute. reflexivity.
Qed.

Lemma find_ext_In {A : Type} (p q : A -> bool) (l : list A) :
  (forall x, In x l -> p x = q x) -> find p l = find q l.
Proof.
  induction l as [ | a l IH ]; intros Hext.
  - reflexivity.
  - cbn [find]. rewrite (Hext a) by now left.
    rewrite IH; [ reflexivity | ]. intros x Hin. apply Hext. now right.
Qed.

(** What [Spec.occurs_in] decides: [text] is [kw] with something before
    and something after it. *)
Lemma starts_with_spec (kw text : string) :
  Spec.starts_with kw text = true <-> exists after, text = kw ++ after.
Proof.
  revert text. induction kw as [ | a kw IH ]; intros text; cbn [Spec.starts_with].
  - split; [ intros _; now exists text | reflexivity ].
  - destruct text as [ | b text ].
    + split; [ discriminate | intros [after Heq]; discriminate Heq ].
    + rewrite andb_true_iff, Ascii.eqb_eq, IH. split.
      * intros [-> [after ->]]. now exists after.
      * intros [after Heq]. injection Heq as -> ->. split; [ reflexivity | now exists after ].
Qed.

Lemma tails_spec (s text : string) :
  In s (Spec.tails text) <-> exists before, text = before ++ s.
Proof.
  induction text as [ | c text IH ]; cbn [Spec.tails In].
  - split.
    + intros [<- | []]. now exists "".
    + intros [before Heq]. left.
      destruct before; [ exact Heq | discriminate Heq ].
  - rewrite IH. split.
    + intros [<- | [before ->]]; [ now exists "" | now exists (String c before) ].
    + intros [[ | b before] Heq].
      * left. exact Heq.
      * right. injection Heq as -> ->. now exists before.
Qed.

Lemma occurs_in_spec (kw text : string) :
  Spec.occurs_in kw text = true <-> exists before after, text = before ++ kw ++ after.
Proof.
  unfold Spec.occurs_in. rewrite existsb_exists. split.
  - intros [s [Hin Hstart]].
    apply tails_spec in Hin. destruct Hin as [before ->].
    apply starts_with_spec in Hstart. destruct Hstart as [after ->].
    now exists before, after.
  - intros [before [after ->]]. exists (kw ++ after). split.
    + apply tails_spec. now exists before.
    + apply starts_with_spec. now exists after.
Qed.

(** The embedding's [in] test is that containment. *)
Lemma starts_with_prefix (kw text : string) :
  Spec.starts_with kw text = prefix kw text.
Proof.
  revert text. induction kw as [ | a kw IH ]; intros text; destruct text as [ | b text ];
    cbn [Spec.starts_with prefix]; try reflexivity.
  destruct (ascii_dec a b) as [-> | Hneq].
  - rewrite Ascii.eqb_refl. apply IH.
  - apply Ascii.eqb_neq in Hneq. now rewrite Hneq.
Qed.

Lemma contains_occurs_in (kw text : string) :
  Py.contains kw text = Spec.occurs_in kw text.
Proof.
  unfold Spec.occurs_in.
  induction text as [ | c text IH ]; cbn [Py.contains Spec.tails existsb];
    rewrite starts_with_prefix.
  - destruct (prefix kw ""); reflexivity.
  - rewrite <- IH. destruct (prefix kw (String c text)); reflexivity.
Qed.

(** On the registry, the keyword sets that the code forms are those of
    the specification. *)
Lemma registry_keyword_sets (axiom : string) :
  In axiom TRUTH_FLOOR -> axiom_words axiom = Spec.keywords axiom.
Proof.
  intros Hin. simpl in Hin.
  repeat (destruct Hin as [<- | Hin]; [ vm_compute; reflexivity | ]).
  destruct Hin.
Qed.

(** The words and the keyword sets of the specification on two axioms. *)
Example spec_keywords_examples :
  Spec.words "A and not-A cannot both be true in the same context"
  = ["A"; "and"; "not-A"; "cannot"; "both"; "be"; "true"; "in"; "the"; "same";
     "context"]
  /\ Spec.keywords "A and not-A cannot both be true in the same context"
     = ["not-a"; "cannot"; "both"; "be"; "true"; "same"; "context"]
  /\ Spec.keywords "Energy is conserved" = ["energy"; "conserved"].
Proof. repeat split; vm_compute; reflexivity. Qed.

(** C3, as amended.  Axiom matching lower-cases the claim and, for each
    axiom in registry order, forms the keyword set of the axiom (its
    lower-cased words minus the stop words "the", "a", "is", "of", "in",
    "to", "and", "an") and declares a match exactly when at least 60% of
    those keywords occur in the lower-cased text of the claim (the claim
    is not split into words: a keyword inside a longer word counts); it
    returns the first axiom in registry order that matches.  The claims
    "Energy is conserved" and "ENERGY IS CONSERVED" match the same
    axiom. *)
Theorem check_truth_floor_matches_substrings (claim : string) :
  check_truth_floor claim = Spec.match_substrings claim
  /\ check_truth_floor "Energy is conserved" = Some "Energy is conserved"
  /\ check_truth_floor "ENERGY IS CONSERVED" = Some "Energy is conserved".
Proof.
  split; [ | split; vm_compute; reflexivity ].
  rewrite check_truth_floor_find.
  unfold Spec.match_substrings, Spec.first_match.
  apply find_ext_In. intros axiom Hin.
  unfold axiom_matches, Py.count.
  rewrite (registry_keyword_sets axiom Hin).
  f_equal. f_equal. apply filter_ext. intros kw. apply contains_occurs_in.
Qed.

(** C3 as the specification words it, with the claim tokenised to a
    word set, fails: the words of "he = 5" hold one keyword of "E = hν"
    only, so no axiom matches, but the code finds "e" inside "he" and
    returns that axiom. *)
Lemma word_set_reading_fails :
  Spec.match_word_set "he = 5" = None
  /\ check_truth_floor "he = 5" = Some "E = hν".
Proof. split; vm_compute; reflexivity. Qed.

(** A keyword is present when it occurs anywhere in the lower-cased
    claim, inside a longer word too: "he = 5" holds "e" and "=", two of
    the three keywords of "E = hν". *)
Example keyword_presence_is_containment :
  axiom_words "E = hν" = ["e"; "="; "hν"]
  /\ check_truth_floor "he = 5" = Some "E = hν".
Proof. split; vm_compute; reflexivity. Qed.

(** ** The epistemic subject detector *)

Lemma some_pattern_found_existsb (patterns : list Re.regex) (text_lower : string) :
  some_pattern_found patterns text_lower = group_matches text_lower patterns.
Proof.
  induction patterns as [ | pattern rest IH ]; simpl.
  - reflexivity.
  - rewrite IH. destruct (Re.search pattern text_lower); reflexivity.
Qed.

(** C4. The detector tries the groups introspective, testimonial,
    authority, a-priori, normative in this order on the lower-cased text
    and returns the fixed record of the first group with a matching
    pattern; without a match it returns the default record (anonymous,
    a-posteriori, 0.8, direct, verifiable).  Nothing is combined across
    groups. *)
Theorem detect_first_match_wins (text : string) :
  detect text = first_match_wins text.
Proof.
  unfold detect, first_match_wins, DETECTION_ORDER. cbv zeta.
  cbn [find fst snd].
  rewrite !some_pattern_found_existsb.
  repeat match goal with
         | |- context [group_matches ?t ?g] => destruct (group_matches t g)
         end; reflexivity.
Qed.

(** The detector has six possible answers. *)
Lemma detect_level_cases (text : string) :
  In (epistemic_level (detect text))
     [INTROSPECTIVE; TESTIMONIAL; A_POSTERIORI; A_PRIORI; NORMATIVE].
Proof.
  unfold detect. cbv zeta.
  repeat match goal with
         | |- context [some_pattern_found ?g ?t] => destruct (some_pattern_found g t)
         end; simpl; tauto.
Qed.

(** ** The classifier *)

Lemma max_from_In (rest : list (string * nat)) (best : string * nat) :
  In (max_from best rest) (map fst (best :: rest)).
Proof.
  revert best. induction rest as [ | kv rest IH ]; intros best.
  - simpl. now left.
  - cbn [max_from]. destruct (snd best <? snd kv)%nat.
    + right. apply IH.
    + destruct (IH best) as [Heq | Hin].
      * left. exact Heq.
      * right. right. exact Hin.
Qed.

Lemma score_tokens_keys (tokens : list (string * TruthToken)) (text_lower k : string) :
  In k (map fst (score_tokens tokens text_lower)) -> In k (map fst tokens).
Proof.
  induction tokens as [ | [symbol token] rest IH ]; cbn [score_tokens].
  - intros [].
  - cbv zeta. destruct (0 <? token_score token text_lower)%nat; simpl.
    + intros [Heq | Hin]; [ now left | right; now apply IH ].
    + intros Hin. right. now apply IH.
Qed.

Lemma dict_get_Some {V : Type} (d : list (string * V)) (k : string) :
  In k (map fst d) -> exists v, dict_get d k = Some v.
Proof.
  induction d as [ | [k' v] rest IH ]; simpl.
  - intros [].
  - intros Hin. destruct (k' =? k) eqn:Heq.
    + now exists v.
    + destruct Hin as [Hk | Hin].
      * subst k'. rewrite String.eqb_refl in Heq. discriminate.
      * now apply IH.
Qed.

Lemma default_token_present :
  dict_get TTO_TOKENS "AtomicFactTT" = Some ATOMIC_FACT
  /\ exists fallback, dict_get TTO_TOKENS "UniversalTT" = Some fallback.
Proof.
  split.
  - vm_compute. reflexivity.
  - eexists. vm_compute. reflexivity.
Qed.

(** The selection of the winning token never fails, and the winner is an
    entry of the token table. *)
Lemma best_match_total (text_lower : string) :
  exists best_symbol best_token,
    best_match text_lower = Some (best_symbol, best_token)
    /\ dict_get TTO_TOKENS best_symbol = Some best_token.
Proof.
  unfold best_match. cbv zeta.
  destruct (score_tokens TTO_TOKENS text_lower) as [ | kv rest ] eqn:Hscores.
  - destruct default_token_present as [Hatomic [fallback Hfallback]].
    rewrite Hfallback, Hatomic.
    exists "AtomicFactTT", ATOMIC_FACT. split; [ reflexivity | exact Hatomic ].
  - cbn [max_key].
    destruct (dict_get_Some TTO_TOKENS (max_from kv rest)) as [token Htoken].
    + apply (score_tokens_keys TTO_TOKENS text_lower).
      rewrite Hscores. apply max_from_In.
    + rewrite Htoken. exists (max_from kv rest), token.
      split; [ reflexivity | exact Htoken ].
Qed.

Lemma score_tokens_nil (tokens : list (string * TruthToken)) (text_lower : string) :
  (forall symbol token kw,
      In (symbol, token) tokens -> In kw (tok_keywords token) ->
      Py.contains kw text_lower = false) ->
  score_tokens tokens text_lower = [].
Proof.
  induction tokens as [ | [symbol token] rest IH ]; intros Hno.
  - reflexivity.
  - cbn [score_tokens]. cbv zeta.
    assert (Hzero : token_score token text_lower = 0%nat).
    { unfold token_score, Py.count.
      assert (Hkw : forall kw, In kw (tok_keywords token) ->
                               Py.contains kw text_lower = false)
        by (intros kw; apply (Hno symbol token kw); now left).
      induction (tok_keywords token) as [ | kw kws IHk ]; simpl.
      - reflexivity.
      - rewrite (Hkw kw) by now left. apply IHk.
        intros kw' Hin. apply Hkw. now right. }
    rewrite Hzero. cbn [Nat.ltb Nat.leb].
    apply IH. intros s t kw Hin. apply (Hno s t kw). now right.
Qed.

Lemma no_keyword_hit_spec (text_lower : string) :
  no_keyword_hit text_lower = true ->
  forall symbol token kw,
    In (symbol, token) TTO_TOKENS -> In kw (tok_keywords token) ->
    Py.contains kw text_lower = false.
Proof.
  unfold no_keyword_hit. intros Hall symbol token kw Hentry Hkw.
  rewrite forallb_forall in Hall. specialize (Hall _ Hentry).
  rewrite forallb_forall in Hall. specialize (Hall _ Hkw).
  now apply negb_true_iff in Hall.
Qed.

(** C5. The final tier is the native tier of the winning token, except
    that an introspective level forces T10, else a testimonial level
    forces T8, else a speculative level forces T11. *)
Theorem final_tier_override (text : string) :
  exists best_symbol best_token c,
    best_match (Py.lower text) = Some (best_symbol, best_token)
    /\ classify text = Some c
    /\ cls_symbol c = best_symbol
    /\ let final_tier :=
         match epistemic_level (detect text) with
         | INTROSPECTIVE => T10_COGNITIVE
         | TESTIMONIAL => T8_TESTIMONIAL
         | SPECULATIVE => T11_SPECULATIVE
         | A_PRIORI | A_POSTERIORI | NORMATIVE => tok_tier best_token
         end in
       cls_tier c = tier_num final_tier
       /\ cls_tier_name c = tier_name final_tier
       /\ cls_resistance c = resistance final_tier.
Proof.
  destruct (best_match_total (Py.lower text)) as [best_symbol [best_token [Hbest _]]].
  exists best_symbol, best_token.
  unfold classify. cbv zeta. rewrite Hbest.
  eexists. split; [ reflexivity | ]. split; [ reflexivity | ]. split; [ reflexivity | ].
  cbn [cls_tier cls_tier_name cls_resistance].
  unfold adjust_tier.
  destruct (epistemic_level (detect text)); repeat split.
Qed.

(** C8. When no keyword of any token occurs in the text (the empty text
    included), classification does not fail and returns the default
    token AtomicFactTT. *)
Theorem unmatched_text_gets_default (text : string)
        (Hno : forall symbol token kw,
            In (symbol, token) TTO_TOKENS -> In kw (tok_keywords token) ->
            Py.contains kw (Py.lower text) = false) :
  exists c,
    classify text = Some c
    /\ cls_symbol c = "AtomicFactTT"
    /\ cls_name c = "Atomic Fact"
    /\ dict_get TTO_TOKENS (cls_symbol c) = Some ATOMIC_FACT.
Proof.
  assert (Hbest : best_match (Py.lower text) = Some ("AtomicFactTT", ATOMIC_FACT)).
  { unfold best_match. cbv zeta.
    rewrite (score_tokens_nil TTO_TOKENS (Py.lower text) Hno).
    destruct default_token_present as [Hatomic [fallback Hfallback]].
    rewrite Hfallback, Hatomic. reflexivity. }
  unfold classify. cbv zeta. rewrite Hbest.
  eexists. split; [ reflexivity | ].
  cbn [cls_symbol cls_name].
  split; [ reflexivity | ]. split; [ reflexivity | ].
  exact (proj1 default_token_present).
Qed.

Lemma unmatched_text_gets_default_witness :
  exists c,
    classify "" = Some c
    /\ cls_symbol c = "AtomicFactTT"
    /\ cls_name c = "Atomic Fact"
    /\ dict_get TTO_TOKENS (cls_symbol c) = Some ATOMIC_FACT.
Proof.
  apply (unmatched_text_gets_default "").
  apply no_keyword_hit_spec. vm_compute. reflexivity.
Defined.

(** C10. The detector never answers with the speculative level, so the
    speculative branch of the tier adjustment is never taken and no
    classification carries the level "speculative". *)
Theorem speculative_never_detected (text : string) :
  epistemic_level (detect text) <> SPECULATIVE
  /\ level_eqb (epistemic_level (detect text)) SPECULATIVE = false
  /\ (forall native,
        adjust_tier (epistemic_level (detect text)) native
        = if level_eqb (epistemic_level (detect text)) INTROSPECTIVE then T10_COGNITIVE
          else if level_eqb (epistemic_level (detect text)) TESTIMONIAL then T8_TESTIMONIAL
          else native)
  /\ exists c, classify text = Some c /\ cls_epistemic_level c <> "speculative".
Proof.
  assert (Hcases := detect_level_cases text).
  assert (Hne : epistemic_level (detect text) <> SPECULATIVE).
  { intros Heq. rewrite Heq in Hcases. simpl in Hcases.
    intuition discriminate. }
  split; [ exact Hne | ].
  split; [ destruct (epistemic_level (detect text)); congruence || reflexivity | ].
  split.
  - intros native. unfold adjust_tier.
    destruct (epistemic_level (detect text)); congruence || reflexivity.
  - destruct (best_match_total (Py.lower text)) as [best_symbol [best_token [Hbest _]]].
    unfold classify. cbv zeta. rewrite Hbest.
    eexists. split; [ reflexivity | ].
    cbn [cls_epistemic_level].
    destruct (epistemic_level (detect text)); simpl; congruence.
Qed.

(** ** The examples of the specification *)

(** C1. On "My friend said Bitcoin will hit $200k this year." no
    testimonial pattern is found: the pronoun pattern wants he, she, they
    or it before "said", and the any-word pattern wants "says".  The
    detector answers with its default, four tokens score 1, and the first
    of them in table order, AtomicFactTT, wins with its native tier T3. *)
Theorem friend_said_is_not_testimonial :
  let text := "My friend said Bitcoin will hit $200k this year." in
  group_matches (Py.lower text) TESTIMONIAL_PATTERNS = false
  /\ detect text = DEFAULT_SUBJECT
  /\ score_tokens TTO_TOKENS (Py.lower text)
     = [("AtomicFactTT", 1); ("HistoricalTT", 1); ("PredictiveTT", 1);
        ("TestimonialTT", 1)]%nat
  /\ classify text
     = Some {| cls_symbol := "AtomicFactTT";
               cls_name := "Atomic Fact";
               cls_tier := 3;
               cls_tier_name := "Empirical-Stable";
               cls_resistance := 0.010;
               cls_epistemic_subject := "anonymous";
               cls_epistemic_level := "a_posteriori";
               cls_verifiability := Some "verifiable";
               cls_confidence := 0.8 |}.
Proof.
  cbv zeta. repeat split; vm_compute; reflexivity.
Qed.

(** The neighbouring phrasings that the testimonial patterns do cover. *)
Example friend_says_is_testimonial :
  epistemic_level (detect "My friend says Bitcoin will hit $200k this year.")
  = TESTIMONIAL
  /\ epistemic_level (detect "She said Bitcoin will hit $200k this year.")
     = TESTIMONIAL.
Proof. split; vm_compute; reflexivity. Qed.

(** C7. "2 + 2 = 4" is classified in tier 0 or 1, and the cascade then
    answers with method "truth_floor_constant" or "mathematical_pattern"
    and a confidence of at least 0.90. *)
Theorem two_plus_two :
  let text := "2 + 2 = 4" in
  exists c,
    classify text = Some c
    /\ (cls_tier c = 0 \/ cls_tier c = 1)%Z
    /\ (method (verification_cascade text c) = "truth_floor_constant"
        \/ method (verification_cascade text c) = "mathematical_pattern")
    /\ PrimFloat.leb 0.90 (vr_confidence (verification_cascade text c)) = true.
Proof.
  cbv zeta. eexists. split; [ vm_compute; reflexivity | ].
  split; [ right; reflexivity | ].
  split; [ right; vm_compute; reflexivity | vm_compute; reflexivity ].
Qed.

(** * Further properties *)

(** ** Strings *)

Lemma lower_char_idempotent (c : ascii) :
  Py.lower_char (Py.lower_char c) = Py.lower_char c.
Proof.
  destruct c as [[] [] [] [] [] [] [] []]; reflexivity.
Qed.

Lemma lower_idempotent (s : string) : Py.lower (Py.lower s) = Py.lower s.
Proof.
  induction s as [ | c s IH ]; simpl.
  - reflexivity.
  - now rewrite lower_char_idempotent, IH.
Qed.

Lemma prefix_app (w s t : string) : prefix w s = true -> prefix w (s ++ t) = true.
Proof.
  revert s. induction w as [ | a w IH ]; intros s Hp.
  - destruct (s ++ t); reflexivity.
  - destruct s as [ | b s ]; simpl in *.
    + discriminate.
    + destruct (ascii_dec a b); [ now apply IH | discriminate ].
Qed.

Lemma contains_app_r (w s t : string) :
  Py.contains w s = true -> Py.contains w (s ++ t) = true.
Proof.
  induction s as [ | c s IH ]; intros Hc.
  - destruct w as [ | a w ].
    + destruct t; reflexivity.
    + simpl in Hc. discriminate.
  - cbn [append Py.contains].
    cbn [Py.contains] in Hc.
    destruct (prefix w (String c s)) eqn:Hp.
    + change (String c (s ++ t)) with (String c s ++ t).
      now rewrite (prefix_app _ _ t Hp).
    + destruct (prefix w (String c (s ++ t))); [ reflexivity | now apply IH ].
Qed.

Lemma contains_app_l (w s t : string) :
  Py.contains w t = true -> Py.contains w (s ++ t) = true.
Proof.
  intros Hc. induction s as [ | c s IH ].
  - exact Hc.
  - cbn [append Py.contains].
    destruct (prefix w (String c (s ++ t))); [ reflexivity | exact IH ].
Qed.

Lemma count_monotone {A : Type} (p q : A -> bool) (l : list A) :
  (forall x, p x = true -> q x = true) -> (Py.count p l <= Py.count q l)%nat.
Proof.
  intros Hpq. unfold Py.count. induction l as [ | x l IH ]; simpl.
  - lia.
  - destruct (p x) eqn:Hp.
    + rewrite (Hpq x Hp). simpl. lia.
    + destruct (q x); simpl; lia.
Qed.

Lemma find_In_Some {A : Type} (p : A -> bool) (l : list A) (x : A) :
  In x l -> p x = true -> exists y, find p l = Some y.
Proof.
  induction l as [ | a l IH ]; intros Hin Hp.
  - destruct Hin.
  - simpl. destruct (p a) eqn:Hpa.
    + now exists a.
    + destruct Hin as [-> | Hin]; [ congruence | now apply IH ].
Qed.

Lemma find_app_Some {A : Type} (p : A -> bool) (l1 l2 : list A) (x : A) :
  find p l1 = Some x -> find p (l1 ++ l2)%list = Some x.
Proof.
  induction l1 as [ | a l1 IH ]; simpl.
  - discriminate.
  - destruct (p a); [ trivial | exact IH ].
Qed.

(** ** Axiom matching, continued *)

(** X1. Letter case is ignored throughout: the axiom matcher, the
    detector and the classifier answer the same on a text and on its
    lower-cased form. *)
Theorem case_is_ignored (text : string) :
  check_truth_floor (Py.lower text) = check_truth_floor text
  /\ detect (Py.lower text) = detect text
  /\ classify (Py.lower text) = classify text.
Proof.
  unfold check_truth_floor, classify, detect. cbv zeta.
  rewrite lower_idempotent. repeat split.
Qed.

(** X2. Fed back to the matcher, every axiom of the registry matches an
    axiom, and all but one match themselves: "Shannon entropy of any
    message is >= 0" holds an "e" and an "=", two of the three keywords
    of the earlier axiom "E = hν", and is attributed to it. *)
Theorem axioms_matched_to_themselves_but_one (axiom : string)
        (Hin : In axiom TRUTH_FLOOR) :
  (axiom <> "Shannon entropy of any message is >= 0"
   -> check_truth_floor axiom = Some axiom)
  /\ (axiom = "Shannon entropy of any message is >= 0"
      -> check_truth_floor axiom = Some "E = hν").
Proof.
  simpl in Hin.
  repeat (destruct Hin as [<- | Hin]; [ split; intros H; try (vm_compute; reflexivity);
                                        try discriminate H; try (now elim H) | ]).
  destruct Hin.
Qed.

Lemma axioms_matched_to_themselves_but_one_witness :
  check_truth_floor "Energy is conserved" = Some "Energy is conserved"
  /\ check_truth_floor "Shannon entropy of any message is >= 0" = Some "E = hν".
Proof.
  split.
  - apply (axioms_matched_to_themselves_but_one "Energy is conserved").
    + simpl. tauto.
    + discriminate.
  - apply (axioms_matched_to_themselves_but_one "Shannon entropy of any message is >= 0").
    + simpl. tauto.
    + reflexivity.
Defined.

(** X3. Text around a claim never removes a match: when the lower-cased
    text of a claim occurs inside the lower-cased text of another claim,
    and the first matches an axiom, the second matches an axiom too. *)
Theorem surrounding_text_keeps_a_match (claim claim' before after axiom : string)
        (Hsurround : Py.lower claim' = before ++ Py.lower claim ++ after)
        (Hmatch : check_truth_floor claim = Some axiom) :
  exists axiom', check_truth_floor claim' = Some axiom'.
Proof.
  rewrite check_truth_floor_find in *.
  apply find_some in Hmatch. destruct Hmatch as [Hin Hratio].
  apply (find_In_Some _ _ axiom Hin).
  unfold at_least_60_percent in *.
  apply Nat.leb_le. apply Nat.leb_le in Hratio.
  assert (Hmono : (axiom_matches axiom (Py.lower claim)
                   <= axiom_matches axiom (Py.lower claim'))%nat).
  { unfold axiom_matches. apply count_monotone. intros w Hw.
    rewrite Hsurround. apply contains_app_l, contains_app_r, Hw. }
  lia.
Qed.

Lemma surrounding_text_keeps_a_match_witness :
  exists axiom',
    check_truth_floor "Everyone knows: Energy is conserved, more or less"
    = Some axiom'.
Proof.
  apply (surrounding_text_keeps_a_match
           "ENERGY is conserved"
           "Everyone knows: Energy is conserved, more or less"
           "everyone knows: " ", more or less"
           "Energy is conserved").
  - vm_compute. reflexivity.
  - vm_compute. reflexivity.
Defined.

(** X4. A match always names an axiom of the registry and rests on at
    least two of its keywords; in particular the empty claim matches no
    axiom. *)
Theorem match_needs_two_keywords :
  (forall claim axiom,
      check_truth_floor claim = Some axiom ->
      In axiom TRUTH_FLOOR
      /\ (2 <= axiom_matches axiom (Py.lower claim))%nat)
  /\ check_truth_floor "" = None.
Proof.
  split; [ | vm_compute; reflexivity ].
  intros claim axiom Hmatch.
  rewrite check_truth_floor_find in Hmatch.
  apply find_some in Hmatch. destruct Hmatch as [Hin Hratio].
  split; [ exact Hin | ].
  unfold at_least_60_percent in Hratio. apply Nat.leb_le in Hratio.
  assert (Hlen : (2 <= List.length (axiom_words axiom))%nat).
  { simpl in Hin.
    repeat (destruct Hin as [<- | Hin]; [ vm_compute; repeat constructor | ]).
    destruct Hin. }
  lia.
Qed.

Lemma match_needs_two_keywords_witness :
  In "Energy is conserved" TRUTH_FLOOR
  /\ (2 <= axiom_matches "Energy is conserved" (Py.lower "ENERGY IS CONSERVED"))%nat.
Proof.
  apply (proj1 match_needs_two_keywords "ENERGY IS CONSERVED" "Energy is conserved").
  vm_compute. reflexivity.
Defined.

(** X5. Two keywords may be as little as a letter and a sign: every
    claim in which both "e" and "=" occur matches an axiom ("E = hν",
    unless an earlier axiom of the registry matches). *)
Theorem e_and_equals_match_an_axiom (claim : string)
        (He : Py.contains "e" (Py.lower claim) = true)
        (Heq : Py.contains "=" (Py.lower claim) = true) :
  exists axiom,
    check_truth_floor claim = Some axiom
    /\ In axiom ["This statement exists";
                 "A and not-A cannot both be true in the same context";
                 "Energy is conserved";
                 "c = 299792458 m/s in vacuum";
                 "E = hν"].
Proof.
  rewrite check_truth_floor_find.
  set (p := fun axiom => at_least_60_percent _ _).
  assert (Hplanck : p "E = hν" = true).
  { unfold p, at_least_60_percent, axiom_matches.
    change (axiom_words "E = hν") with ["e"; "="; "hν"].
    unfold Py.count. cbn [filter]. rewrite He, Heq.
    apply Nat.leb_le.
    destruct (Py.contains "hν" (Py.lower claim)); simpl; lia. }
  change TRUTH_FLOOR
    with (["This statement exists";
           "A and not-A cannot both be true in the same context";
           "Energy is conserved";
           "c = 299792458 m/s in vacuum";
           "E = hν"] ++ skipn 5 TRUTH_FLOOR)%list.
  set (front := [_; _; _; _; _]).
  destruct (find p front) as [axiom | ] eqn:Hfront.
  - exists axiom. split.
    + now apply find_app_Some.
    + now apply find_some in Hfront.
  - exfalso.
    assert (Hnot : p "E = hν" = false).
    { apply (find_none _ _ Hfront). unfold front. simpl. tauto. }
    congruence.
Qed.

Lemma e_and_equals_match_an_axiom_witness :
  exists axiom,
    check_truth_floor "The moon = cheese" = Some axiom
    /\ In axiom ["This statement exists";
                 "A and not-A cannot both be true in the same context";
                 "Energy is conserved";
                 "c = 299792458 m/s in vacuum";
                 "E = hν"].
Proof.
  apply (e_and_equals_match_an_axiom "The moon = cheese"); vm_compute; reflexivity.
Defined.

(** ** The detector and the classifier, continued *)

(** X6. Whatever the text, the record of the detector is coherent: no
    subject name, a confidence between 0.6 and 1.0, "unfalsifiable"
    exactly for the introspective level and the subject "self", the
    subject "other" exactly for the testimonial level, and the subject
    "universal" exactly for the a-priori level. *)
Theorem detect_record_is_coherent (text : string) :
  subject_name (detect text) = None
  /\ PrimFloat.leb 0.6 (confidence (detect text)) = true
  /\ PrimFloat.leb (confidence (detect text)) 1.0 = true
  /\ (verifiability (detect text) = "unfalsifiable"
      <-> epistemic_level (detect text) = INTROSPECTIVE)
  /\ (subject_type (detect text) = "self"
      <-> epistemic_level (detect text) = INTROSPECTIVE)
  /\ (subject_type (detect text) = "other"
      <-> epistemic_level (detect text) = TESTIMONIAL)
  /\ (subject_type (detect text) = "universal"
      <-> epistemic_level (detect text) = A_PRIORI).
Proof.
  unfold detect. cbv zeta.
  repeat match goal with
         | |- context [some_pattern_found ?g ?t] => destruct (some_pattern_found g t)
         end;
    cbn [subject_name confidence verifiability epistemic_level subject_type];
    repeat split; intros H; try reflexivity; discriminate H.
Qed.

Lemma table_keys_are_symbols (symbol : string) (token : TruthToken) :
  In (symbol, token) TTO_TOKENS -> tok_symbol token = symbol.
Proof.
  unfold TTO_TOKENS. rewrite in_map_iff.
  intros [t [Heq _]]. now inversion Heq.
Qed.

Lemma dict_get_In {V : Type} (d : list (string * V)) (k : string) (v : V) :
  dict_get d k = Some v -> In (k, v) d.
Proof.
  induction d as [ | [k' v'] rest IH ]; simpl.
  - discriminate.
  - destruct (k' =? k) eqn:Heq.
    + apply String.eqb_eq in Heq. intros [= ->]. left. now subst.
    + intros Hget. right. now apply IH.
Qed.

(** X7. Every classification is well formed: its symbol is a key of the
    token table and its name the name of that token; its tier, tier name
    and resistance belong to one tier, which is the token's, T10 or T8,
    so the tier lies in 0..12; its subject fields are those of the
    detector. *)
Theorem classification_is_well_formed (text : string) :
  exists c token t,
    classify text = Some c
    /\ dict_get TTO_TOKENS (cls_symbol c) = Some token
    /\ tok_symbol token = cls_symbol c
    /\ cls_name c = tok_name token
    /\ In t [tok_tier token; T10_COGNITIVE; T8_TESTIMONIAL]
    /\ cls_tier c = tier_num t
    /\ cls_tier_name c = tier_name t
    /\ cls_resistance c = resistance t
    /\ (0 <= cls_tier c <= 12)%Z
    /\ cls_epistemic_subject c = subject_type (detect text)
    /\ cls_epistemic_level c = level_value (epistemic_level (detect text))
    /\ cls_verifiability c = Some (verifiability (detect text))
    /\ cls_confidence c = confidence (detect text).
Proof.
  destruct (best_match_total (Py.lower text)) as [symbol [token [Hbest Hget]]].
  unfold classify. cbv zeta. rewrite Hbest.
  eexists. exists token.
  exists (adjust_tier (epistemic_level (detect text)) (tok_tier token)).
  split; [ reflexivity | ].
  cbn [cls_symbol cls_name cls_tier cls_tier_name cls_resistance
       cls_epistemic_subject cls_epistemic_level cls_verifiability cls_confidence].
  split; [ exact Hget | ].
  split; [ apply table_keys_are_symbols, dict_get_In, Hget | ].
  split; [ reflexivity | ].
  split.
  - assert (Hcases := detect_level_cases text).
    unfold adjust_tier.
    destruct (epistemic_level (detect text)); simpl in *; intuition discriminate.
  - repeat split;
      destruct (adjust_tier (epistemic_level (detect text)) (tok_tier token));
      simpl; lia.
Qed.

(** *** The winning token *)

Lemma max_from_split (rest : list (string * nat)) (best : string * nat) :
  exists v pre post,
    (best :: rest = pre ++ (max_from best rest, v) :: post)%list
    /\ (forall kv, In kv pre -> (snd kv < v)%nat)
    /\ (forall kv, In kv post -> (snd kv <= v)%nat).
Proof.
  revert best. induction rest as [ | kv rest IH ]; intros best.
  - exists (snd best), [], []. destruct best. simpl. intuition.
  - cbn [max_from]. destruct (snd best <? snd kv)%nat eqn:Hlt.
    + apply Nat.ltb_lt in Hlt.
      destruct (IH kv) as [v [pre [post [Heq [Hpre Hpost]]]]].
      exists v, (best :: pre), post. split; [ | split ].
      * simpl. now rewrite <- Heq.
      * assert (Hkv : (snd kv <= v)%nat).
        { assert (Hin : In kv (pre ++ (max_from kv rest, v) :: post)%list)
            by (rewrite <- Heq; now left).
          apply in_app_or in Hin. destruct Hin as [Hin | [<- | Hin]].
          - apply Hpre in Hin. lia.
          - simpl. lia.
          - now apply Hpost. }
        intros x [<- | Hin]; [ lia | now apply Hpre ].
      * exact Hpost.
    + apply Nat.ltb_ge in Hlt.
      destruct (IH best) as [v [pre [post [Heq [Hpre Hpost]]]]].
      destruct pre as [ | b pre ].
      * simpl in Heq. injection Heq as Hbest Hrest.
        exists v, [], (kv :: post). split; [ | split ].
        -- simpl. now rewrite <- Hbest, <- Hrest.
        -- intros x [].
        -- intros x [<- | Hin]; [ | now apply Hpost ].
           rewrite Hbest in Hlt. simpl in Hlt. exact Hlt.
      * simpl in Heq. injection Heq as Hb Hrest. subst b.
        exists v, (best :: kv :: pre), post. split; [ | split ].
        -- simpl. now rewrite <- Hrest.
        -- assert (Hbv : (snd best < v)%nat) by (apply Hpre; now left).
           intros x [<- | [<- | Hin]]; [ exact Hbv | lia | ].
           apply Hpre. now right.
        -- exact Hpost.
Qed.

Lemma score_tokens_app (toks1 toks2 : list (string * TruthToken)) (t : string) :
  score_tokens (toks1 ++ toks2) t = (score_tokens toks1 t ++ score_tokens toks2 t)%list.
Proof.
  induction toks1 as [ | [symbol token] rest IH ]; cbn [score_tokens app].
  - reflexivity.
  - cbv zeta. rewrite IH. destruct (0 <? token_score token t)%nat; reflexivity.
Qed.

Lemma score_tokens_In (tokens : list (string * TruthToken)) (t k : string) (v : nat) :
  In (k, v) (score_tokens tokens t) ->
  exists token, In (k, token) tokens /\ v = token_score token t /\ (0 < v)%nat.
Proof.
  induction tokens as [ | [symbol token] rest IH ]; cbn [score_tokens].
  - intros [].
  - cbv zeta. destruct (0 <? token_score token t)%nat eqn:Hpos.
    + intros [[= <- <-] | Hin].
      * exists token. apply Nat.ltb_lt in Hpos. repeat split; [ now left | exact Hpos ].
      * destruct (IH Hin) as [tok [Htok Hv]]. exists tok. split; [ now right | exact Hv ].
    + intros Hin. destruct (IH Hin) as [tok [Htok Hv]].
      exists tok. split; [ now right | exact Hv ].
Qed.

Lemma score_tokens_complete (tokens : list (string * TruthToken)) (t k : string)
      (token : TruthToken) :
  In (k, token) tokens -> (0 < token_score token t)%nat ->
  In (k, token_score token t) (score_tokens tokens t).
Proof.
  induction tokens as [ | [symbol tok] rest IH ]; cbn [score_tokens].
  - intros [].
  - cbv zeta. intros [[= -> ->] | Hin] Hpos.
    + apply Nat.ltb_lt in Hpos. rewrite Hpos. now left.
    + destruct (0 <? token_score tok t)%nat; [ right | ]; now apply IH.
Qed.

Lemma score_tokens_NoDup (tokens : list (string * TruthToken)) (t : string) :
  NoDup (map fst tokens) -> NoDup (map fst (score_tokens tokens t)).
Proof.
  induction tokens as [ | [symbol token] rest IH ]; cbn [score_tokens map fst].
  - trivial.
  - cbv zeta. intros Hnd. inversion Hnd as [ | ? ? Hnotin Hrest ]; subst.
    destruct (0 <? token_score token t)%nat; [ | now apply IH ].
    cbn [map fst]. constructor; [ | now apply IH ].
    intros Hin. apply Hnotin. now apply (score_tokens_keys rest t).
Qed.

Lemma TTO_TOKENS_keys_NoDup : NoDup (map fst TTO_TOKENS).
Proof.
  assert (Heq : nodup string_dec (map fst TTO_TOKENS) = map fst TTO_TOKENS)
    by (vm_compute; reflexivity).
  rewrite <- Heq. apply NoDup_nodup.
Qed.

Lemma key_split_unique {V : Type} (k : string) (x y : V)
      (l1 l2 l1' l2' : list (string * V)) :
  (l1 ++ (k, x) :: l2 = l1' ++ (k, y) :: l2')%list ->
  ~ In k (map fst l1) -> ~ In k (map fst l1') -> l1 = l1' /\ x = y.
Proof.
  revert l1'. induction l1 as [ | a l1 IH ]; intros l1' Heq Hn Hn'.
  - destruct l1' as [ | b l1' ]; simpl in Heq.
    + injection Heq as Hxy _. now split.
    + injection Heq as Hb _. subst b. elim Hn'. now left.
  - destruct l1' as [ | b l1' ]; simpl in Heq.
    + injection Heq as Ha _. subst a. elim Hn. now left.
    + injection Heq as Hab Hrest. subst b.
      destruct (IH l1' Hrest) as [Hl Hxy].
      * intros Hin. apply Hn. now right.
      * intros Hin. apply Hn'. now right.
      * split; [ now rewrite Hl | exact Hxy ].
Qed.

(** The key that [max] returns belongs to a token with a positive score
    that no token of the table exceeds and no earlier token equals. *)
Lemma winner_is_first_maximum (tokens : list (string * TruthToken)) (t : string)
      (kv : string * nat) (rest : list (string * nat)) :
  NoDup (map fst tokens) ->
  score_tokens tokens t = kv :: rest ->
  exists token,
    In (max_from kv rest, token) tokens
    /\ (0 < token_score token t)%nat
    /\ (forall symbol' token',
          In (symbol', token') tokens ->
          (token_score token' t <= token_score token t)%nat)
    /\ (forall earlier later,
          tokens = (earlier ++ (max_from kv rest, token) :: later)%list ->
          forall symbol' token',
            In (symbol', token') earlier ->
            (token_score token' t < token_score token t)%nat).
Proof.
  intros Hnodup Hscores.
  destruct (max_from_split rest kv) as [v [pre [post [Hsplit [Hpre Hpost]]]]].
  rewrite <- Hscores in Hsplit.
  set (k := max_from kv rest) in *.
  assert (Hkv : In (k, v) (score_tokens tokens t))
    by (rewrite Hsplit; apply in_or_app; right; now left).
  destruct (score_tokens_In tokens t k v Hkv) as [token [Htoken [Hv Hpos]]].
  exists token. subst v.
  split; [ exact Htoken | ]. split; [ exact Hpos | ]. split.
  - intros symbol' token' Hin.
    destruct (token_score token' t) as [ | n ] eqn:Hscore; [ lia | ].
    assert (Hin' : In (symbol', token_score token' t) (score_tokens tokens t))
      by (apply score_tokens_complete; [ exact Hin | lia ]).
    rewrite Hsplit in Hin'. apply in_app_or in Hin'.
    destruct Hin' as [Hin' | [Heq | Hin']].
    + apply Hpre in Hin'. simpl in Hin'. lia.
    + inversion Heq. lia.
    + apply Hpost in Hin'. simpl in Hin'. lia.
  - intros earlier later Htable symbol' token' Hin.
    assert (Hk_earlier : ~ In k (map fst earlier)).
    { rewrite Htable, map_app in Hnodup. cbn [map fst] in Hnodup.
      apply NoDup_remove_2 in Hnodup.
      intros Hk. apply Hnodup, in_or_app. now left. }
    assert (Hscores' : score_tokens tokens t
                       = (score_tokens earlier t
                          ++ (k, token_score token t) :: score_tokens later t)%list).
    { rewrite Htable, score_tokens_app. cbn [score_tokens]. cbv zeta.
      apply Nat.ltb_lt in Hpos. now rewrite Hpos. }
    assert (Hk_pre : ~ In k (map fst pre)).
    { assert (Hnd := score_tokens_NoDup tokens t Hnodup).
      rewrite Hsplit, map_app in Hnd. cbn [map fst] in Hnd.
      apply NoDup_remove_2 in Hnd.
      intros Hk. apply Hnd, in_or_app. now left. }
    assert (Hsame : pre = score_tokens earlier t).
    { rewrite Hsplit in Hscores'.
      apply key_split_unique in Hscores'; [ tauto | exact Hk_pre | ].
      intros Hk. apply Hk_earlier. now apply (score_tokens_keys earlier t). }
    destruct (token_score token' t) as [ | n ] eqn:Hscore; [ lia | ].
    assert (Hin' : In (symbol', token_score token' t) (score_tokens earlier t))
      by (apply score_tokens_complete; [ exact Hin | lia ]).
    rewrite <- Hsame in Hin'. apply Hpre in Hin'. simpl in Hin'. lia.
Qed.

(** X8. When a keyword of some token occurs in the text, the token of
    the classification has the highest number of keyword hits of the
    whole table, a positive one, and every token before it in the table
    has strictly fewer hits. *)
Theorem winner_has_the_most_hits (text : string)
        (Hhit : exists symbol token,
            In (symbol, token) TTO_TOKENS
            /\ (0 < token_score token (Py.lower text))%nat) :
  exists c winner,
    classify text = Some c
    /\ In (cls_symbol c, winner) TTO_TOKENS
    /\ (0 < token_score winner (Py.lower text))%nat
    /\ (forall symbol token,
          In (symbol, token) TTO_TOKENS ->
          (token_score token (Py.lower text) <= token_score winner (Py.lower text))%nat)
    /\ (forall earlier later,
          TTO_TOKENS = (earlier ++ (cls_symbol c, winner) :: later)%list ->
          forall symbol token,
            In (symbol, token) earlier ->
            (token_score token (Py.lower text) < token_score winner (Py.lower text))%nat).
Proof.
  destruct Hhit as [symbol0 [token0 [Hin0 Hpos0]]].
  destruct (score_tokens TTO_TOKENS (Py.lower text)) as [ | kv rest ] eqn:Hscores.
  { apply (score_tokens_complete TTO_TOKENS (Py.lower text)) in Hin0; [ | exact Hpos0 ].
    rewrite Hscores in Hin0. destruct Hin0. }
  clear Hin0 Hpos0.
  destruct (winner_is_first_maximum TTO_TOKENS (Py.lower text) kv rest
              TTO_TOKENS_keys_NoDup Hscores)
    as [winner [Hwin [Hpos [Hmax Hfirst]]]].
  assert (Hget : dict_get TTO_TOKENS (max_from kv rest) = Some winner).
  { clear Hscores Hmax Hfirst Hpos.
    generalize dependent (max_from kv rest). intros k Hwin.
    generalize TTO_TOKENS_keys_NoDup. generalize dependent TTO_TOKENS.
    intros table Hwin Hnd.
    induction table as [ | [k' v'] table IH ].
    - destruct Hwin.
    - cbn [dict_get]. cbn [map fst] in Hnd.
      inversion Hnd as [ | ? ? Hnotin Hrest ]; subst.
      destruct Hwin as [Heq | Hin].
      + injection Heq as -> ->. rewrite String.eqb_refl. reflexivity.
      + destruct (k' =? k) eqn:Hk.
        * apply String.eqb_eq in Hk. subst k'.
          elim Hnotin. apply in_map_iff. exists (k, winner).
          split; [ reflexivity | exact Hin ].
        * apply IH; assumption. }
  assert (Hbest : best_match (Py.lower text) = Some (max_from kv rest, winner)).
  { unfold best_match. cbv zeta. rewrite Hscores. cbn [max_key].
    rewrite Hget. reflexivity. }
  unfold classify. cbv zeta. rewrite Hbest.
  eexists. exists winner. split; [ reflexivity | ].
  cbn [cls_symbol].
  split; [ exact Hwin | ]. split; [ exact Hpos | ].
  split; [ exact Hmax | exact Hfirst ].
Qed.

Lemma winner_has_the_most_hits_witness :
  exists c winner,
    classify "2 + 2 = 4" = Some c
    /\ In (cls_symbol c, winner) TTO_TOKENS
    /\ (0 < token_score winner (Py.lower "2 + 2 = 4"))%nat
    /\ (forall symbol token,
          In (symbol, token) TTO_TOKENS ->
          (token_score token (Py.lower "2 + 2 = 4")
           <= token_score winner (Py.lower "2 + 2 = 4"))%nat)
    /\ (forall earlier later,
          TTO_TOKENS = (earlier ++ (cls_symbol c, winner) :: later)%list ->
          forall symbol token,
            In (symbol, token) earlier ->
            (token_score token (Py.lower "2 + 2 = 4")
             < token_score winner (Py.lower "2 + 2 = 4"))%nat).
Proof.
  apply (winner_has_the_most_hits "2 + 2 = 4").
  exists "MathematicalTT".
  exists (mkTruthToken "MathematicalTT" T1_MATHEMATICAL "Mathematical"
                       "Provable calculation"
                       ["equals"; "sum"; "calculate"; "compute"; "math";
                        "+"; "-"; "*"; "/"; "="]).
  split.
  - unfold TTO_TOKENS. cbn [map]. do 3 right. left. reflexivity.
  - vm_compute. repeat constructor.
Defined.

(** ** The verification cascade, continued *)

Lemma tier_in_not_In (tier : Z) (band : list Z) :
  tier_in tier band = false -> ~ In tier band.
Proof.
  unfold tier_in. intros Hf Hin.
  assert (Ht : existsb (Z.eqb tier) band = true).
  { apply existsb_exists. exists tier. split; [ exact Hin | apply Z.eqb_refl ]. }
  congruence.
Qed.

Ltac tier_facts :=
  repeat match goal with
         | H : (_ =? _)%Z = true |- _ => apply Z.eqb_eq in H
         | H : (_ =? _)%Z = false |- _ => apply Z.eqb_neq in H
         | H : tier_in _ _ = true |- _ => apply tier_in_In in H; simpl in H
         | H : tier_in _ _ = false |- _ => apply tier_in_not_In in H; simpl in H
         end.

Lemma band_T12_fires (tier : Z) (res : float) :
  ~ (6 <= tier <= 11)%Z -> fires tier res (band_T12 tier res).
Proof.
  intros Hout. unfold band_T12, default_pass.
  destruct (tier =? 12)%Z eqn:H12; tier_facts; constructor; lia.
Qed.

Lemma band_T9_T11_fires (c : Classification) (tier : Z) (res : float) :
  ~ (6 <= tier <= 8)%Z -> fires tier res (band_T9_T11 c tier res).
Proof.
  intros Hout. unfold band_T9_T11.
  destruct (tier_in tier [9; 10; 11]%Z) eqn:Hband; tier_facts.
  - destruct (_ =? "unfalsifiable"); constructor; lia.
  - apply band_T12_fires. lia.
Qed.

Lemma band_T6_T8_fires (c : Classification) (tier : Z) (res : float) :
  fires tier res (band_T6_T8 c tier res).
Proof.
  unfold band_T6_T8.
  destruct (tier_in tier [6; 7; 8]%Z) eqn:Hband; tier_facts.
  - constructor. lia.
  - apply band_T9_T11_fires. lia.
Qed.

Lemma band_T3_T5_fires (claim : string) (c : Classification) (tier : Z) (res : float) :
  fires tier res (band_T3_T5 claim c tier res).
Proof.
  unfold band_T3_T5. cbv zeta.
  destruct (tier_in tier [3; 4; 5]%Z) eqn:Hband; tier_facts.
  - destruct (any_keyword _ claim); [ constructor; lia | apply band_T6_T8_fires ].
  - apply band_T6_T8_fires.
Qed.

Lemma band_T1_T2_fires (claim : string) (c : Classification) (tier : Z) (res : float) :
  fires tier res (band_T1_T2 claim c tier res).
Proof.
  unfold band_T1_T2. cbv zeta.
  destruct (tier_in tier [1; 2]%Z) eqn:Hband; tier_facts.
  - destruct (Py.truthy _); [ constructor; lia | ].
    destruct (Re.search _ claim); [ constructor; lia | ].
    destruct (any_keyword _ claim); [ constructor; lia | ].
    apply band_T3_T5_fires.
  - apply band_T3_T5_fires.
Qed.

(** Every result of the cascade is the result of one of its rules, at a
    tier of the band of that rule. *)
Lemma cascade_fires (claim : string) (c : Classification) :
  fires (cls_tier c) (cls_resistance c) (verification_cascade claim c).
Proof.
  unfold verification_cascade. cbv zeta.
  destruct (cls_tier c =? 0)%Z eqn:Hzero; tier_facts.
  - destruct (Py.truthy _); [ constructor; lia | ].
    destruct (any_keyword _ claim); [ constructor; lia | ].
    apply band_T1_T2_fires.
  - apply band_T1_T2_fires.
Qed.

(** X9. The result of the cascade carries the tier and the resistance of
    the classification unchanged, whichever rule fires. *)
Theorem cascade_copies_tier_and_resistance (claim : string) (c : Classification) :
  vr_tier (verification_cascade claim c) = cls_tier c
  /\ vr_resistance (verification_cascade claim c) = cls_resistance c.
Proof.
  destruct (cascade_fires claim c); split; reflexivity.
Qed.

(** X10. The verified flag and the confidence are a function of the
    method label: the three always form one of eleven fixed rows, so the
    confidence lies between 0.0 and 1.0. *)
Theorem cascade_outcome_is_tabulated (claim : string) (c : Classification) :
  In (method (verification_cascade claim c),
      (verified (verification_cascade claim c),
       vr_confidence (verification_cascade claim c)))
     CASCADE_OUTCOMES
  /\ PrimFloat.leb 0.0 (vr_confidence (verification_cascade claim c)) = true
  /\ PrimFloat.leb (vr_confidence (verification_cascade claim c)) 1.0 = true.
Proof.
  destruct (cascade_fires claim c);
    cbn [method verified vr_confidence];
    (split; [ unfold CASCADE_OUTCOMES; cbn [In];
              repeat (first [ left; reflexivity | right ])
            | split; reflexivity ]).
Qed.

(** X11. The method label tells the band: the integrity label is given
    exactly at tier 12, "context_acknowledged" exactly at tiers 6 to 8,
    the two acknowledgment labels exactly at tiers 9 to 11; the axiom and
    tautology labels only at tier 0, the constant, mathematical and
    logical labels only at tiers 1 and 2, "pattern_verified" only at
    tiers 3 to 5, and "default_pass" never at tiers 6 to 12. *)
Theorem method_tells_the_band (claim : string) (c : Classification) :
  (method (verification_cascade claim c) = "integrity_violation_detected"
   <-> cls_tier c = 12%Z)
  /\ (method (verification_cascade claim c) = "context_acknowledged"
      <-> (6 <= cls_tier c <= 8)%Z)
  /\ (method (verification_cascade claim c) = "epistemic_acknowledgment"
      \/ method (verification_cascade claim c) = "speculative_flagged"
      <-> (9 <= cls_tier c <= 11)%Z)
  /\ (method (verification_cascade claim c) = "truth_floor_axiom"
      \/ method (verification_cascade claim c) = "tautology"
      -> cls_tier c = 0%Z)
  /\ (method (verification_cascade claim c) = "truth_floor_constant"
      \/ method (verification_cascade claim c) = "mathematical_pattern"
      \/ method (verification_cascade claim c) = "logical_pattern"
      -> (1 <= cls_tier c <= 2)%Z)
  /\ (method (verification_cascade claim c) = "pattern_verified"
      -> (3 <= cls_tier c <= 5)%Z)
  /\ (method (verification_cascade claim c) = "default_pass"
      -> ~ (6 <= cls_tier c <= 12)%Z).
Proof.
  destruct (cascade_fires claim c);
    cbn [method];
    repeat match goal with
           | |- _ /\ _ => split
           | |- _ <-> _ => split
           end;
    intros;
    repeat match goal with
           | H : _ \/ _ |- _ => destruct H
           end;
    try discriminate; try lia;
    try (left; reflexivity); try (right; reflexivity); try reflexivity.
Qed.

(** Outside tiers 0 to 5 the first three blocks of the cascade are
    skipped. *)
Lemma cascade_skips_to_T6 (claim : string) (c : Classification) :
  ~ (0 <= cls_tier c <= 5)%Z ->
  verification_cascade claim c = band_T6_T8 c (cls_tier c) (cls_resistance c).
Proof.
  intros Hout.
  unfold verification_cascade, band_T1_T2, band_T3_T5. cbv zeta.
  destruct (cls_tier c =? 0)%Z eqn:H0; tier_facts; [ lia | ].
  destruct (tier_in (cls_tier c) [1; 2]%Z) eqn:H1; tier_facts; [ lia | ].
  destruct (tier_in (cls_tier c) [3; 4; 5]%Z) eqn:H3; tier_facts; [ lia | ].
  reflexivity.
Qed.

(** X12. A tier below 0 or above 12 is not refused: the cascade answers
    with the default, verified with confidence 0.60. *)
Theorem tier_out_of_range_passes (claim : string) (c : Classification)
        (Hout : (cls_tier c < 0 \/ 12 < cls_tier c)%Z) :
  verification_cascade claim c = default_pass (cls_tier c) (cls_resistance c).
Proof.
  destruct (cascade_fires claim c); try lia.
  reflexivity.
Qed.

Lemma tier_out_of_range_passes_witness :
  verification_cascade "Energy is conserved"
    (mkClassification "FalseTT" "False" 13 "" 1.0 "" "" None 0.8)
  = default_pass 13 1.0.
Proof.
  apply (tier_out_of_range_passes "Energy is conserved"
           (mkClassification "FalseTT" "False" 13 "" 1.0 "" "" None 0.8)).
  simpl. lia.
Defined.

(** X13. From tier 6 up (and below tier 0) the text of the claim is
    never looked at: two claims with the same classification get the
    same result. *)
Theorem claim_text_unused_outside_tiers_0_to_5 (claim claim' : string)
        (c : Classification) (Hout : ~ (0 <= cls_tier c <= 5)%Z) :
  verification_cascade claim c = verification_cascade claim' c.
Proof.
  rewrite (cascade_skips_to_T6 claim c Hout).
  rewrite (cascade_skips_to_T6 claim' c Hout).
  reflexivity.
Qed.

Lemma claim_text_unused_outside_tiers_0_to_5_witness :
  verification_cascade "Energy is conserved" sample_T12
  = verification_cascade "The earth is flat" sample_T12.
Proof.
  apply (claim_text_unused_outside_tiers_0_to_5
           "Energy is conserved" "The earth is flat" sample_T12).
  simpl. lia.
Defined.

(** X14. At tiers 9 to 11 the verifiability entry alone decides: the
    result is "epistemic_acknowledgment" (0.50) exactly when it is
    "unfalsifiable", and "speculative_flagged" (0.40) for any other value
    and when the entry is absent. *)
Theorem acknowledgment_iff_unfalsifiable (claim : string) (c : Classification)
        (Hband : (9 <= cls_tier c <= 11)%Z) :
  (cls_verifiability c = Some "unfalsifiable"
   -> method (verification_cascade claim c) = "epistemic_acknowledgment"
      /\ vr_confidence (verification_cascade claim c) = 0.50%float)
  /\ (cls_verifiability c <> Some "unfalsifiable"
      -> method (verification_cascade claim c) = "speculative_flagged"
         /\ vr_confidence (verification_cascade claim c) = 0.40%float).
Proof.
  rewrite cascade_skips_to_T6 by lia.
  unfold band_T6_T8, band_T9_T11.
  destruct (tier_in (cls_tier c) [6; 7; 8]%Z) eqn:H6; tier_facts; [ lia | ].
  destruct (tier_in (cls_tier c) [9; 10; 11]%Z) eqn:H9; tier_facts; [ | lia ].
  destruct (cls_verifiability c) as [v | ].
  - destruct (v =? "unfalsifiable") eqn:Hv.
    + apply String.eqb_eq in Hv. subst v. split; [ now split | congruence ].
    + apply String.eqb_neq in Hv. split; [ congruence | now split ].
  - split; [ discriminate | now split ].
Qed.

Lemma acknowledgment_iff_unfalsifiable_witness :
  method (verification_cascade "maybe"
            (mkClassification "SpeculativeTT" "Speculative" 11 "Speculative"
                              0.5 "anonymous" "a_posteriori" None 0.8))
  = "speculative_flagged"
  /\ vr_confidence (verification_cascade "maybe"
            (mkClassification "SpeculativeTT" "Speculative" 11 "Speculative"
                              0.5 "anonymous" "a_posteriori" None 0.8))
     = 0.40%float.
Proof.
  apply (acknowledgment_iff_unfalsifiable "maybe"
           (mkClassification "SpeculativeTT" "Speculative" 11 "Speculative"
                             0.5 "anonymous" "a_posteriori" None 0.8)).
  - simpl. lia.
  - discriminate.
Defined.

(** ** Recognition followed by verification *)

Lemma recognize_total (text : string) :
  exists best_symbol best_token c,
    best_match (Py.lower text) = Some (best_symbol, best_token)
    /\ classify text = Some c
    /\ _recognize text = Some (mkRecognition c (check_truth_floor text))
    /\ cls_tier c
       = tier_num (adjust_tier (epistemic_level (detect text)) (tok_tier best_token))
    /\ cls_resistance c
       = resistance (adjust_tier (epistemic_level (detect text)) (tok_tier best_token))
    /\ cls_verifiability c = Some (verifiability (detect text)).
Proof.
  destruct (best_match_total (Py.lower text)) as [best_symbol [best_token [Hbest _]]].
  exists best_symbol, best_token.
  unfold _recognize, classify. cbv zeta. rewrite Hbest.
  eexists. repeat split.
Qed.

Lemma detect_introspective_unfalsifiable (text : string) :
  epistemic_level (detect text) = INTROSPECTIVE ->
  verifiability (detect text) = "unfalsifiable".
Proof.
  unfold detect. cbv zeta.
  repeat match goal with
         | |- context [some_pattern_found ?g ?t] => destruct (some_pattern_found g t)
         end; simpl; congruence.
Qed.

(** X15. The phrasing can decide the verification alone.  A text the
    detector reads as introspective is verified by
    "epistemic_acknowledgment" with confidence 0.50, and one it reads as
    testimonial by "context_acknowledged" with confidence 0.70, whatever
    token its keywords select, a token of tier 12 included. *)
Theorem phrasing_decides_verification (text : string) :
  exists recognition,
    _recognize text = Some recognition
    /\ truth_floor_match recognition = check_truth_floor text
    /\ (epistemic_level (detect text) = INTROSPECTIVE
        -> verified (_solve text recognition) = true
           /\ method (_solve text recognition) = "epistemic_acknowledgment"
           /\ vr_confidence (_solve text recognition) = 0.50%float
           /\ vr_tier (_solve text recognition) = 10%Z)
    /\ (epistemic_level (detect text) = TESTIMONIAL
        -> verified (_solve text recognition) = true
           /\ method (_solve text recognition) = "context_acknowledged"
           /\ vr_confidence (_solve text recognition) = 0.70%float
           /\ vr_tier (_solve text recognition) = 8%Z).
Proof.
  destruct (recognize_total text)
    as [best_symbol [best_token [c [_ [_ [Hrec [Htier [_ Hverif]]]]]]]].
  eexists. split; [ exact Hrec | ]. split; [ reflexivity | ].
  unfold _solve. cbn [rec_classification].
  split; intros Hlevel; rewrite Hlevel in Htier; cbn in Htier.
  - rewrite cascade_skips_to_T6 by (rewrite Htier; lia).
    unfold band_T6_T8, band_T9_T11. rewrite Htier, Hverif.
    rewrite (detect_introspective_unfalsifiable text Hlevel).
    cbn. repeat split.
  - rewrite cascade_skips_to_T6 by (rewrite Htier; lia).
    unfold band_T6_T8. rewrite Htier. cbn. repeat split.
Qed.

(** X16. On the path from text to verification, the verified flag is
    false exactly when the winning token is of tier 12 and the detected
    level is neither introspective nor testimonial. *)
Theorem pipeline_rejects_iff_unmasked_tier12 (text : string) :
  exists best_symbol best_token recognition,
    best_match (Py.lower text) = Some (best_symbol, best_token)
    /\ _recognize text = Some recognition
    /\ (verified (_solve text recognition) = false
        <-> tok_tier best_token = T12_INTEGRITY
            /\ epistemic_level (detect text) <> INTROSPECTIVE
            /\ epistemic_level (detect text) <> TESTIMONIAL).
Proof.
  destruct (recognize_total text)
    as [best_symbol [best_token [c [Hbest [_ [Hrec [Htier _]]]]]]].
  exists best_symbol, best_token. eexists.
  split; [ exact Hbest | ]. split; [ exact Hrec | ].
  unfold _solve. cbn [rec_classification].
  rewrite cascade_verified, Htier. unfold adjust_tier.
  assert (Hcases := detect_level_cases text).
  destruct (epistemic_level (detect text));
    try (exfalso; simpl in Hcases; intuition discriminate);
    clear Hcases; destruct (tok_tier best_token);
    cbn; split; intros H; try discriminate H; try reflexivity;
    try (repeat split; congruence);
    try (destruct H as [H1 [H2 H3]]; congruence).
Qed.

(** ** Awareness and resource allocation *)

Lemma prefix_refl (s : string) : prefix s s = true.
Proof.
  induction s as [ | c s IH ]; simpl.
  - reflexivity.
  - destruct (ascii_dec c c); [ exact IH | congruence ].
Qed.

Lemma endswith_contains (s suffix : string) :
  Py.endswith s suffix = true -> Py.contains suffix s = true.
Proof.
  induction s as [ | c s IH ]; cbn [Py.endswith Py.contains].
  - destruct ("" =? suffix) eqn:Heq; [ | discriminate ].
    apply String.eqb_eq in Heq. subst suffix. reflexivity.
  - destruct (String c s =? suffix) eqn:Heq.
    + apply String.eqb_eq in Heq. subst suffix. intros _.
      now rewrite prefix_refl.
    + intros Hend. rewrite (IH Hend).
      destruct (prefix suffix (String c s)); reflexivity.
Qed.

(** X17. A text that ends with a question mark is always recorded as a
    question: [contains_claim] can only be false when [is_question] is
    true. *)
Theorem no_claim_implies_question (input_problem : string)
        (Hno_claim : contains_claim (_aware input_problem) = false) :
  is_question (_aware input_problem) = Some true.
Proof.
  unfold _aware in *. cbv zeta in *. cbn [contains_claim is_question] in *.
  apply negb_false_iff in Hno_claim.
  now rewrite (endswith_contains _ _ Hno_claim).
Qed.

Lemma no_claim_implies_question_witness :
  is_question (_aware "Is energy conserved?") = Some true.
Proof.
  apply (no_claim_implies_question "Is energy conserved?").
  vm_compute. reflexivity.
Defined.

Lemma level_in_high_list (l : EpistemicLevel) :
  Py.mem (level_value l) ["testimonial"; "normative"] = true
  <-> l = TESTIMONIAL \/ l = NORMATIVE.
Proof.
  destruct l; cbn; split; intros H; try discriminate H; try tauto;
    destruct H; discriminate.
Qed.

(** X18. Resource allocation after perception: deep analysis is
    requested exactly when the text has more than 50 words or its level
    is testimonial or normative; that is exactly the complexity "high",
    and it allocates 7 dimensions, otherwise none; "medium" is the
    complexity of the other texts of more than 20 words; verification is
    waived exactly for the a-priori level. *)
Theorem allocation_rule (input_problem : string) :
  let words := Z.of_nat (List.length (Py.split input_problem)) in
  let level := epistemic_level (detect input_problem) in
  let energy := _energize (_aware input_problem) in
  (requires_deep_analysis energy = true
   <-> (50 < words)%Z \/ level = TESTIMONIAL \/ level = NORMATIVE)
  /\ (complexity energy = "high" <-> requires_deep_analysis energy = true)
  /\ (complexity energy = "medium"
      <-> requires_deep_analysis energy = false /\ (20 < words)%Z)
  /\ allocated_dimensions energy
     = (if requires_deep_analysis energy then 7 else 0)%Z
  /\ (requires_verification energy = false <-> level = A_PRIORI).
Proof.
  cbv zeta. unfold _energize, _aware. cbv zeta.
  cbn [word_count aw_epistemic_level].
  set (words := Z.of_nat (List.length (Py.split input_problem))).
  set (level := epistemic_level (detect input_problem)).
  set (deep := ((50 <? words)%Z || Py.mem (level_value level) _)%bool).
  assert (Hdeep : deep = true <-> (50 < words)%Z \/ level = TESTIMONIAL \/ level = NORMATIVE).
  { unfold deep. rewrite orb_true_iff, Z.ltb_lt, level_in_high_list. tauto. }
  assert (Hverify : (if (level_value level =? "a_priori") then false else true) = false
                    <-> level = A_PRIORI).
  { destruct level; cbn; split; intros H; congruence. }
  destruct deep.
  - cbn [complexity requires_deep_analysis allocated_dimensions requires_verification].
    split; [ exact Hdeep | ].
    split; [ split; reflexivity | ].
    split; [ split; [ discriminate | intros [H _]; discriminate H ] | ].
    split; [ reflexivity | exact Hverify ].
  - destruct (Z.ltb_spec 20 words) as [H20 | H20];
      cbn [complexity requires_deep_analysis allocated_dimensions requires_verification].
    + split; [ exact Hdeep | ].
      split; [ split; discriminate | ].
      split; [ split; [ intros _; split; [ reflexivity | exact H20 ] | reflexivity ] | ].
      split; [ reflexivity | exact Hverify ].
    + split; [ exact Hdeep | ].
      split; [ split; discriminate | ].
      split; [ split; [ discriminate | intros [_ H]; lia ] | ].
      split; [ reflexivity | exact Hverify ].
Qed.

(** ** The REST wrapper *)

Lemma classification_exists (text : string) : exists c, classify text = Some c.
Proof.
  destruct (best_match_total (Py.lower text)) as [best_symbol [best_token [Hbest _]]].
  unfold classify. cbv zeta. rewrite Hbest. eexists. reflexivity.
Qed.

(** X19. A tier number has a description exactly when it lies in 0..12;
    any other number is answered with "Unknown tier".  The tiers listing
    has 13 entries, ranks 0 to 12 in order, none of them unknown. *)
Theorem tier_description_known_iff_in_range (tier_num : Z) :
  (_get_tier_description tier_num = "Unknown tier" <-> ~ (0 <= tier_num <= 12)%Z)
  /\ snd get_tiers = 13%Z
  /\ map ti_tier (fst get_tiers) = [0; 1; 2; 3; 4; 5; 6; 7; 8; 9; 10; 11; 12]%Z
  /\ Forall (fun info => ti_description info <> "Unknown tier") (fst get_tiers).
Proof.
  split; [ | split; [ reflexivity | split; [ reflexivity | ] ] ].
  - split.
    + intros Hunknown Hrange.
      assert (Hcases : In tier_num [0; 1; 2; 3; 4; 5; 6; 7; 8; 9; 10; 11; 12]%Z)
        by (simpl; lia).
      simpl in Hcases.
      repeat (destruct Hcases as [<- | Hcases]; [ discriminate Hunknown | ]).
      destruct Hcases.
    + intros Hout. unfold _get_tier_description, TIER_DESCRIPTIONS.
      cbn [int_dict_get].
      repeat match goal with
             | |- context [(?k =? tier_num)%Z] =>
                 destruct (Z.eqb_spec k tier_num); [ lia | ]
             end.
      reflexivity.
  - repeat constructor; discriminate.
Qed.

(** X20. The classification endpoint never answers with status 400.
    The 400 it raises for a missing or empty text is raised inside its
    own [try] block and leaves as a 500; a non-empty text is always
    answered with its classification. *)
Theorem classify_endpoint_statuses
        (str_exception : Raised -> string) (request : list (string * string)) :
  (dict_get request "text" = None \/ dict_get request "text" = Some ""
   -> classify_text str_exception request
      = inr (HTTPException 500
               ("Classification failed: "
                ++ str_exception (HTTPException 400 "Text is required"))))
  /\ (forall text,
        dict_get request "text" = Some text -> text <> "" ->
        exists c, classify text = Some c
                  /\ classify_text str_exception request = inl (text, c))
  /\ (forall detail,
        classify_text str_exception request <> inr (HTTPException 400 detail)).
Proof.
  unfold classify_text, classify_text_body. cbv zeta.
  split; [ | split ].
  - intros [Hnone | Hempty]; [ rewrite Hnone | rewrite Hempty ]; reflexivity.
  - intros text Hget Hnonempty. rewrite Hget.
    apply String.eqb_neq in Hnonempty. rewrite Hnonempty.
    destruct (classification_exists text) as [c Hc].
    exists c. rewrite Hc. split; reflexivity.
  - intros detail.
    destruct (_ =? ""); [ discriminate | ].
    destruct (classify _); discriminate.
Qed.

(** ** The stages that call the provider *)

Lemma dict_set_new {V : Type} (d : list (string * V)) (k : string) (v : V) :
  ~ In k (map fst d) -> dict_set d k v = (d ++ [(k, v)])%list.
Proof.
  induction d as [ | [k' v'] rest IH ]; cbn [dict_set map fst app].
  - reflexivity.
  - intros Hnotin. destruct (k' =? k) eqn:Heq.
    + apply String.eqb_eq in Heq. elim Hnotin. now left.
    + rewrite IH; [ reflexivity | ]. intros Hin. apply Hnotin. now right.
Qed.

Section EngineProperties.

Variable World : Type.
Variable complete : Z -> string -> World -> (string + string) * World.
Variable time_time : World -> float * World.
Variable datetime : Type.
Variable datetime_now : World -> datetime * World.
Variable isoformat : datetime -> string.
Variable format_percent : float -> string.
Variable format_3f : float -> string.
Variable str_float : float -> string.
Variable json_dumps : list (string * PyVal) -> string.

(** Whatever the provider answers, the loop files one entry under each
    new dimension name, in order. *)
Lemma analysis_loop_keys (dimensions : list (string * string)) (elements : string)
      (analysis : list (string * string)) (w : World) :
  NoDup (map fst analysis ++ map fst dimensions) ->
  map fst (fst (analysis_loop World complete dimensions elements analysis w))
  = (map fst analysis ++ map fst dimensions)%list.
Proof.
  revert analysis w.
  induction dimensions as [ | [dim_name dim_prompt] rest IH ]; intros analysis w Hnd.
  - cbn. now rewrite app_nil_r.
  - cbn [analysis_loop]. cbv zeta.
    destruct (complete 200 _ w) as [outcome w'].
    assert (Hnew : ~ In dim_name (map fst analysis)).
    { cbn [map fst] in Hnd. apply NoDup_remove_2 in Hnd.
      intros Hin. apply Hnd, in_or_app. now left. }
    assert (Hnd' : forall v,
               NoDup (map fst (dict_set analysis dim_name v) ++ map fst rest)).
    { intros v. rewrite (dict_set_new _ _ _ Hnew), map_app. cbn [map fst].
      rewrite <- app_assoc. exact Hnd. }
    destruct outcome as [content | e];
      rewrite IH by apply Hnd';
      rewrite (dict_set_new _ _ _ Hnew), map_app, <- app_assoc; reflexivity.
Qed.

Lemma dimension_names_NoDup : NoDup (map fst ANALYSIS_DIMENSIONS).
Proof.
  cbn. repeat constructor; cbn; intuition discriminate.
Qed.

Lemma analysis_keys (elements : string) (w : World) :
  map fst (fst (multidimensional_analysis World complete elements w))
  = map fst ANALYSIS_DIMENSIONS.
Proof.
  unfold multidimensional_analysis.
  rewrite analysis_loop_keys; [ reflexivity | exact dimension_names_NoDup ].
Qed.

(** X21. Whatever the provider does on each of its calls, failures
    included, the analysis has exactly the seven dimensions as keys, in
    their fixed order: a failed call costs one entry its text, never the
    later entries. *)
Theorem analysis_covers_every_dimension (elements : string) (w : World) :
  map fst (fst (multidimensional_analysis World complete elements w))
  = ["logical"; "emotional"; "ethical"; "temporal"; "stakeholder"; "risk"; "creative"].
Proof.
  rewrite analysis_keys. reflexivity.
Qed.

(** When every call fails with the same message, every entry is the
    failure marker. *)
Lemma analysis_loop_outage (e : string) (dimensions : list (string * string))
      (elements : string) (analysis : list (string * string)) (w : World) :
  (forall max_tokens prompt w0, fst (complete max_tokens prompt w0) = inr e) ->
  NoDup (map fst analysis ++ map fst dimensions) ->
  fst (analysis_loop World complete dimensions elements analysis w)
  = (analysis
     ++ map (fun d => (fst d, ("[Analysis failed: " ++ e ++ "]")%string)) dimensions)%list.
Proof.
  intros Hdown. revert analysis w.
  induction dimensions as [ | [dim_name dim_prompt] rest IH ]; intros analysis w Hnd.
  - cbn. now rewrite app_nil_r.
  - cbn [analysis_loop]. cbv zeta.
    assert (Hcall := Hdown 200%Z
                       (String.concat ""
                          [dim_prompt; Py.LF; Py.LF; "Context: "; elements; Py.LF; Py.LF;
                           "Provide concise analysis (2-3 sentences)."]) w).
    destruct (complete 200 _ w) as [outcome w']. cbn [fst] in Hcall. subst outcome.
    assert (Hnew : ~ In dim_name (map fst analysis)).
    { cbn [map fst] in Hnd. apply NoDup_remove_2 in Hnd.
      intros Hin. apply Hnd, in_or_app. now left. }
    rewrite (dict_set_new _ _ _ Hnew).
    rewrite IH.
    + rewrite <- app_assoc. reflexivity.
    + rewrite map_app. cbn [map fst]. rewrite <- app_assoc. exact Hnd.
Qed.

Local Notation "'run_reason'" :=
  (reason World complete time_time datetime datetime_now isoformat
          format_percent format_3f str_float json_dumps).

Ltac state_fields :=
  cbn [set_stage set_awareness set_energy_allocation set_recognition set_thinking
       set_solution set_action set_attainment set_total_time_ms set_llm_calls
       new_state input_problem stage timestamp awareness energy_allocation
       recognition thinking solution action attainment total_time_ms llm_calls].

Ltac result_fields :=
  cbn [res_input res_stages res_metadata res_response st_recognize st_solve
       st_think st_attain md_tier md_resistance md_llm_calls st_rest_llm_calls
       st_act_response_generated st_rest_cycle_complete rec_classification].

(** X22. Whatever the provider and the clock do, [reason] returns a
    result.  The result carries the input, the classification of the
    input and its verification by the cascade; the tier and resistance of
    its metadata are those of the classification; the provider is counted
    as called 8 times when deep analysis was allocated and once
    otherwise, in which case the analysis is marked as skipped; the
    response counts as generated exactly when it is not empty. *)
Theorem reason_always_completes (input : string) (w : World) :
  exists result w' c,
    run_reason input w = Some (result, w')
    /\ classify input = Some c
    /\ res_input result = input
    /\ st_recognize (res_stages result)
       = Some (mkRecognition c (check_truth_floor input))
    /\ st_solve (res_stages result) = verification_cascade input c
    /\ md_tier (res_metadata result) = Some (cls_tier c)
    /\ md_resistance (res_metadata result) = Some (cls_resistance c)
    /\ md_llm_calls (res_metadata result)
       = (if requires_deep_analysis (_energize (_aware input)) then 8 else 1)%Z
    /\ st_rest_llm_calls (res_stages result) = md_llm_calls (res_metadata result)
    /\ (if requires_deep_analysis (_energize (_aware input))
        then map fst (st_think (res_stages result)) = map fst ANALYSIS_DIMENSIONS
        else st_think (res_stages result)
             = [("skipped", VBool true);
                ("reason", VStr "Low complexity - direct verification")])
    /\ st_act_response_generated (res_stages result)
       = negb (res_response result =? "").
Proof.
  unfold reason, reason_state.
  destruct (time_time w) as [start_time w1].
  destruct (datetime_now w1) as [now w2].
  destruct (recognize_total input)
    as [best_symbol [best_token [c [_ [Hclassify [Hrecognize _]]]]]].
  rewrite Hrecognize. state_fields.
  destruct (requires_deep_analysis (_energize (_aware input))) eqn:Hdeep.
  - unfold _think.
    match goal with
    | |- context [multidimensional_analysis World complete ?el ?w0] =>
        assert (Hkeys := analysis_keys el w0);
        destruct (multidimensional_analysis World complete el w0) as [analysis w3]
    end.
    cbn [fst] in Hkeys.
    unfold _act, _attain. state_fields.
    destruct (complete 500 _ w3) as [outcome w4].
    state_fields.
    destruct (time_time w4) as [end_time w5].
    unfold _compile_result. state_fields.
    eexists. exists w5, c.
    split; [ reflexivity | ]. split; [ exact Hclassify | ].
    result_fields.
    repeat (split; [ reflexivity | ]).
    split; [ | reflexivity ].
    rewrite map_map. cbn [fst]. exact Hkeys.
  - unfold _act, _attain. state_fields.
    destruct (complete 500 _ w2) as [outcome w3].
    state_fields.
    destruct (time_time w3) as [end_time w4].
    unfold _compile_result. state_fields.
    eexists. exists w4, c.
    split; [ reflexivity | ]. split; [ exact Hclassify | ].
    result_fields.
    repeat (split; [ reflexivity | ]).
    reflexivity.
Qed.

(** X23. A provider that fails on every call does not stop [reason]:
    the response is the failure marker, which still counts as a
    generated response; every dimension of an allocated analysis holds
    its own failure marker; the verification is the one of the cascade,
    untouched; the failed calls are counted like successful ones. *)
Theorem provider_outage_is_absorbed (e input : string) (w : World)
        (Hdown : forall max_tokens prompt w0,
            fst (complete max_tokens prompt w0) = inr e) :
  exists result w' c,
    run_reason input w = Some (result, w')
    /\ classify input = Some c
    /\ res_response result = "[Response generation failed: " ++ e ++ "]"
    /\ st_act_response_generated (res_stages result) = true
    /\ st_solve (res_stages result) = verification_cascade input c
    /\ md_llm_calls (res_metadata result)
       = (if requires_deep_analysis (_energize (_aware input)) then 8 else 1)%Z
    /\ (requires_deep_analysis (_energize (_aware input)) = true
        -> st_think (res_stages result)
           = map (fun d => (fst d, VStr ("[Analysis failed: " ++ e ++ "]")))
                 ANALYSIS_DIMENSIONS).
Proof.
  unfold reason, reason_state.
  destruct (time_time w) as [start_time w1].
  destruct (datetime_now w1) as [now w2].
  destruct (recognize_total input)
    as [best_symbol [best_token [c [_ [Hclassify [Hrecognize _]]]]]].
  rewrite Hrecognize. state_fields.
  destruct (requires_deep_analysis (_energize (_aware input))) eqn:Hdeep.
  - unfold _think, multidimensional_analysis.
    match goal with
    | |- context [analysis_loop World complete ?ds ?el ?acc ?w0] =>
        assert (Hmarkers := analysis_loop_outage e ds el acc w0 Hdown
                              dimension_names_NoDup);
        destruct (analysis_loop World complete ds el acc w0) as [analysis w3]
    end.
    cbn [fst app] in Hmarkers. subst analysis.
    unfold _act, _attain. state_fields.
    match goal with
    | |- context [complete 500%Z ?p w3] =>
        assert (Hcall := Hdown 500%Z p w3);
        destruct (complete 500%Z p w3) as [outcome w4]
    end.
    cbn [fst] in Hcall. subst outcome. state_fields.
    destruct (time_time w4) as [end_time w5].
    unfold _compile_result. state_fields.
    eexists. exists w5, c.
    split; [ reflexivity | ]. split; [ exact Hclassify | ].
    result_fields.
    repeat (split; [ reflexivity | ]).
    intros _. rewrite map_map. reflexivity.
  - unfold _act, _attain. state_fields.
    match goal with
    | |- context [complete 500%Z ?p w2] =>
        assert (Hcall := Hdown 500%Z p w2);
        destruct (complete 500%Z p w2) as [outcome w3]
    end.
    cbn [fst] in Hcall. subst outcome. state_fields.
    destruct (time_time w3) as [end_time w4].
    unfold _compile_result. state_fields.
    eexists. exists w4, c.
    split; [ reflexivity | ]. split; [ exact Hclassify | ].
    result_fields.
    repeat (split; [ reflexivity | ]).
    discriminate.
Qed.

(** X24. After the cascade, the attainment stage reports failure exactly
    for the two labels "speculative_flagged" and
    "integrity_violation_detected", and exactly then the confidence
    level "low"; the level "high" is reported exactly when no caveats are
    asked for, and only at tiers 0 to 5. *)
Theorem attainment_after_cascade (state : ReasoningState datetime)
        (claim : string) (c : Classification)
        (Hsolution : solution datetime state = Some (verification_cascade claim c)) :
  exists a,
    _attain datetime state = Some a
    /\ verification_method a = method (verification_cascade claim c)
    /\ (goal_achieved a = false
        <-> verification_method a = "speculative_flagged"
            \/ verification_method a = "integrity_violation_detected")
    /\ (confidence_level a = "low" <-> goal_achieved a = false)
    /\ (confidence_level a = "high" <-> caveats_needed a = false)
    /\ (confidence_level a = "high" -> (0 <= cls_tier c <= 5)%Z).
Proof.
  unfold _attain. rewrite Hsolution.
  eexists. split; [ reflexivity | ].
  cbn [verification_method goal_achieved confidence_level caveats_needed].
  split; [ reflexivity | ].
  destruct (cascade_fires claim c);
    cbn [verified vr_confidence method];
    repeat match goal with
           | |- context [PrimFloat.leb ?a ?b] =>
               let v := eval vm_compute in (PrimFloat.leb a b) in
               change (PrimFloat.leb a b) with v
           | |- context [PrimFloat.ltb ?a ?b] =>
               let v := eval vm_compute in (PrimFloat.ltb a b) in
               change (PrimFloat.ltb a b) with v
           end;
    cbn [andb];
    repeat match goal with
           | |- _ /\ _ => split
           | |- _ <-> _ => split
           end;
    intros;
    repeat match goal with
           | H : _ \/ _ |- _ => destruct H
           end;
    try discriminate; try lia; try reflexivity;
    try (left; reflexivity); try (right; reflexivity).
Qed.

End EngineProperties.

Lemma provider_outage_is_absorbed_witness :
  exists result w' c,
    reason unit (fun _ _ w => (inr "timeout", w)) (fun w => (0.0%float, w))
           unit (fun w => (tt, w)) (fun _ => "") (fun _ => "") (fun _ => "")
           (fun _ => "") (fun _ => "") "2 + 2 = 4" tt
    = Some (result, w')
    /\ classify "2 + 2 = 4" = Some c
    /\ res_response result = "[Response generation failed: " ++ "timeout" ++ "]"
    /\ st_act_response_generated (res_stages result) = true
    /\ st_solve (res_stages result) = verification_cascade "2 + 2 = 4" c
    /\ md_llm_calls (res_metadata result)
       = (if requires_deep_analysis (_energize (_aware "2 + 2 = 4")) then 8 else 1)%Z
    /\ (requires_deep_analysis (_energize (_aware "2 + 2 = 4")) = true
        -> st_think (res_stages result)
           = map (fun d => (fst d, VStr ("[Analysis failed: " ++ "timeout" ++ "]")))
                 ANALYSIS_DIMENSIONS).
Proof.
  apply (provider_outage_is_absorbed
           unit (fun _ _ w => (inr "timeout", w)) (fun w => (0.0%float, w))
           unit (fun w => (tt, w)) (fun _ => "") (fun _ => "") (fun _ => "")
           (fun _ => "") (fun _ => "") "timeout" "2 + 2 = 4" tt).
  reflexivity.
Defined.

Lemma attainment_after_cascade_witness :
  exists a,
    _attain unit (set_solution unit (Some (verification_cascade "gossip" sample_T12))
                               (new_state unit "gossip" tt))
    = Some a
    /\ verification_method a = method (verification_cascade "gossip" sample_T12)
    /\ (goal_achieved a = false
        <-> verification_method a = "speculative_flagged"
            \/ verification_method a = "integrity_violation_detected")
    /\ (confidence_level a = "low" <-> goal_achieved a = false)
    /\ (confidence_level a = "high" <-> caveats_needed a = false)
    /\ (confidence_level a = "high" -> (0 <= cls_tier sample_T12 <= 5)%Z).
Proof.
  apply (attainment_after_cascade
           unit
           (set_solution unit (Some (verification_cascade "gossip" sample_T12))
                         (new_state unit "gossip" tt))
           "gossip" sample_T12).
  reflexivity.
Defined.
